(** * Dashboard conversion cost analysis: the cost model of
    [dash_analysis.py] and [dash_cat_analysis.py]

    Both scripts read three spreadsheets (dashboard catalog, effort levels,
    hourly rates), clean the catalog, look the effort figures up by
    conversion level, scale them by a page factor and a status factor, split
    them between two roles, price them and add the columns up.

    Numbers are IEEE 754 binary64 values, as Python's [float] and the
    [float64] columns of pandas are: they are Rocq's primitive floats, whose
    operations round as the hardware does and whose NaN is the missing value
    of pandas.  Whole numbers read from a sheet enter the arithmetic as the
    floats of the same value.  Text is a [string] of characters with code
    points below 256 (Latin-1), on which [strip] and [lower] do what
    Python's do; text with other characters is not represented.

    What is modelled is the cost computation, lines 12-82 of
    [dash_analysis.py] and lines 11-112 of [dash_cat_analysis.py]: a run
    either produces its tables and totals or raises, and a raised exception
    is [None].  The charts and the printed summary are drawn from these
    tables and totals and are not modelled; that a run finishes means below
    that the cost computation does.

    What the scripts use of pandas is modelled as pandas does it:
    - [df[c]] is the column labelled [c], raises when there is none, and is
      a table when the label is repeated, with which the scripts raise
      (but for the hourly rates, see [indexed_to_dict]);
    - a column of a sheet is a column of text ([object]) when it holds a
      text or the sheet has no rows; the [.str] methods turn an entry that
      is not text into NaN, and raise on a column of numbers;
    - [Series.map] with a lookup column refuses a lookup with repeated
      labels, and gives NaN for an entry without a match;
    - arithmetic with a text entry raises, and so does arithmetic of a
      column of figures with a text, the columns of figures being taken for
      columns of floats;
    - [sum] counts NaN as 0.0 and adds a column of floats up as numpy does:
      in row order when it has fewer than eight rows, in eight interleaved
      partial sums beyond. *)

From Stdlib Require Import ZArith QArith Qabs Floats String Ascii List Bool Lia.
From stdpp Require Import base option list.
Set Warnings "-inexact-float".
Import ListNotations.
Local Open Scope string_scope.

(** ** Python strings *)

Module Py.

(** A character is a code point below 256 (Latin-1); a text with other
    characters is not represented.  [str.isspace] there: tab, line feed,
    vertical tab, form feed, carriage return, the four separators
    0x1c-0x1f, space, next line (0x85) and the no-break space (0xa0). *)
Definition isspace (c : ascii) : bool :=
  let n := nat_of_ascii c in
  ((9 <=? n)%nat && (n <=? 13)%nat) || ((28 <=? n)%nat && (n <=? 32)%nat)
  || (n =? 133)%nat || (n =? 160)%nat.

Fixpoint lstrip (s : string) : string :=
  match s with
  | EmptyString => EmptyString
  | String c s' => if isspace c then lstrip s' else s
  end.

Fixpoint rstrip (s : string) : string :=
  match s with
  | EmptyString => EmptyString
  | String c s' =>
      match rstrip s' with
      | EmptyString => if isspace c then EmptyString else String c EmptyString
      | t => String c t
      end
  end.

(** [str.strip()] *)
Definition strip (s : string) : string := rstrip (lstrip s).

(** [str.lower] on one character: A-Z, and the capital letters of Latin-1,
    0xc0-0xde without the multiplication sign 0xd7. *)
Definition lower_char (c : ascii) : ascii :=
  let n := nat_of_ascii c in
  if ((65 <=? n)%nat && (n <=? 90)%nat)
     || ((192 <=? n)%nat && (n <=? 222)%nat && negb (n =? 215)%nat)
  then ascii_of_nat (n + 32) else c.

(** [str.lower()] *)
Fixpoint lower (s : string) : string :=
  match s with
  | EmptyString => EmptyString
  | String c s' => String (lower_char c) (lower s')
  end.

(** [int(x)] of a float: the integer part, rounding towards zero.  NaN
    raises [ValueError] and an infinity raises [OverflowError]. *)
Definition int (x : float) : option Z :=
  match Prim2SF x with
  | S754_zero _ => Some 0%Z
  | S754_finite s m e =>
      let a := if (0 <=? e)%Z then (Z.pos m * 2 ^ e)%Z else (Z.pos m / 2 ^ (- e))%Z in
      Some (if s then (- a)%Z else a)
  | S754_infinity _ | S754_nan => None
  end.

(** The float of a whole number that binary64 holds exactly (up to 2^53 in
    absolute value), as Python converts an [int] operand of a float
    operation. *)
Definition float_of_Z (z : Z) : float :=
  match z with
  | Z0 => 0%float
  | Zpos _ => of_uint63 (Uint63.of_Z z)
  | Zneg p => (- of_uint63 (Uint63.of_Z (Zpos p)))%float
  end.

End Py.

(** ** Exact values of floats

    Tolerances are stated over the rationals: [exact x] is the real number a
    finite float stands for. *)

Definition exact (x : float) : option Q :=
  match Prim2SF x with
  | S754_zero _ => Some 0%Q
  | S754_finite s m e =>
      let a := if (0 <=? e)%Z then inject_Z (Z.pos m * 2 ^ e) else (Z.pos m # Pos.shiftl 1 (Z.to_N (- e))) in
      Some (if s then Qopp a else a)
  | S754_infinity _ | S754_nan => None
  end.

(** [within tol x q]: the float [x] is finite and at most [tol] away from the
    number [q]. *)
Definition within (tol : Q) (x : float) (q : Q) : Prop :=
  match exact x with
  | Some v => (Qabs (v - q) <= tol)%Q
  | None => False
  end.

(** [math.floor] in the words of the specification: the greatest integer
    below or at the value. *)
Definition floor (x : float) : option Z :=
  match Prim2SF x with
  | S754_zero _ => Some 0%Z
  | S754_finite s m e =>
      let n := if s then Z.neg m else Z.pos m in
      Some (if (0 <=? e)%Z then (n * 2 ^ e)%Z else (n `div` 2 ^ (- e))%Z)
  | S754_infinity _ | S754_nan => None
  end.

(** ** pandas: cells, tables and column operations *)

Module pd.

(** A cell of a sheet holds text or a number; the empty cell is the number
    NaN.  (Dates and truth values are not modelled.) *)
Inductive cell : Type :=
| Str (s : string)
| Num (x : float).

Definition NaN : cell := Num nan.

(** [pd.isna] *)
Definition isna (c : cell) : bool :=
  match c with
  | Str _ => false
  | Num x => is_nan x
  end.

(** Equality of index labels: text by characters, numbers by value, and the
    missing label matches the missing label. *)
Definition label_eqb (a b : cell) : bool :=
  match a, b with
  | Str s, Str t => String.eqb s t
  | Num x, Num y => (is_nan x && is_nan y) || PrimFloat.eqb x y
  | _, _ => false
  end.

(** A table: its column labels, and its rows, each with one cell per
    column. *)
Record DataFrame : Type := {
  columns : list string;
  rows : list (list cell)
}.

Fixpoint index_of (c : string) (cols : list string) : option nat :=
  match cols with
  | [] => None
  | c' :: cols' => if String.eqb c c' then Some 0%nat else S <$> index_of c cols'
  end.

Definition cell_at (i : nat) (r : list cell) : cell := nth i r NaN.

(** How often a label occurs among the labels. *)
Fixpoint occurrences (c : string) (cols : list string) : nat :=
  match cols with
  | [] => 0%nat
  | c' :: cols' => ((if String.eqb c c' then 1 else 0) + occurrences c cols')%nat
  end.

Definition repeated (c : string) (cols : list string) : bool :=
  (1 <? occurrences c cols)%nat.

(** [df[c]] where a column is wanted: the column labelled [c]; [KeyError]
    when there is none.  When the label is repeated pandas gives the table
    of the columns that have it, and what the scripts go on to do with a
    table raises: it has no [.str], and neither [pd.to_numeric] nor
    [Series.map] nor [set_index] takes one. *)
Definition column (c : string) (df : DataFrame) : option (list cell) :=
  i ← index_of c (columns df);
  if repeated c (columns df) then None else Some (map (cell_at i) (rows df)).

(** [df.columns = df.columns.str.strip().str.lower()] *)
Definition normalize_columns (df : DataFrame) : DataFrame :=
  {| columns := map (fun c => Py.lower (Py.strip c)) (columns df);
     rows := rows df |}.

(** [df.dropna(subset=cs)]: keeps the rows that have a value in every column
    of [cs]; [KeyError] when one of them is not a column. *)
Definition dropna (subset : list string) (df : DataFrame) : option DataFrame :=
  idx ← mapM (fun c => index_of c (columns df)) subset;
  Some {| columns := columns df;
          rows := List.filter (fun r => forallb (fun i => negb (isna (cell_at i r))) idx) (rows df) |}.

Fixpoint dict_get {V : Type} (k : string) (d : list (string * V)) : option V :=
  match d with
  | [] => None
  | (k', v) :: d' => if String.eqb k k' then Some v else dict_get k d'
  end.

(** [df.rename(columns=m)]: labels that are keys of [m] are replaced, the
    others and every cell are kept. *)
Definition rename (m : list (string * string)) (df : DataFrame) : DataFrame :=
  {| columns := map (fun c => default c (dict_get c m)) (columns df);
     rows := rows df |}.

Definition is_text (c : cell) : bool :=
  match c with
  | Str _ => true
  | Num _ => false
  end.

(** The dtype a column gets when its sheet is read: [object] when the
    column holds a text or the sheet has no rows, a dtype of numbers
    otherwise (also when every cell of the column is empty).  Rows dropped
    later do not change it. *)
Definition object_dtype (s : list cell) : bool :=
  existsb is_text s || match s with [] => true | _ :: _ => false end.

(** [s.str] on a column read as [s]: pandas raises [AttributeError] on a
    column of numbers. *)
Definition str_accessor (s : list cell) : option (list cell) :=
  if object_dtype s then Some s else None.

(** [s.str] on the entries of an [object] column: they have to hold a text,
    possibly among other entries, or no value at all; otherwise pandas
    raises [AttributeError]. *)
Definition has_str (s : list cell) : bool := existsb is_text s || forallb isna s.

(** [s.str.strip().str.lower()]: an entry that is not text becomes NaN. *)
Definition strip_lower (c : cell) : cell :=
  match c with
  | Str s => Str (Py.lower (Py.strip s))
  | Num _ => NaN
  end.

Definition str_strip_lower (s : list cell) : option (list cell) :=
  if has_str s then Some (map strip_lower s) else None.

(** [s.map(lookup)] where [lookup] is a column indexed by [index]: each entry
    is replaced by the value at the label equal to it, NaN when there is
    none.  pandas refuses an index with a repeated label
    ([InvalidIndexError]). *)
Fixpoint find_label (k : cell) (index values : list cell) : cell :=
  match index, values with
  | l :: index', v :: values' => if label_eqb k l then v else find_label k index' values'
  | _, _ => NaN
  end.

Fixpoint unique_labels (index : list cell) : bool :=
  match index with
  | [] => true
  | l :: index' => negb (existsb (label_eqb l) index') && unique_labels index'
  end.

Definition map_series (index values : list cell) (s : list cell) : option (list cell) :=
  if unique_labels index then Some (map (fun k => find_label k index values) s) else None.

(** Arithmetic on cells: Python raises [TypeError] on text. *)
Definition mul (a b : cell) : option cell :=
  match a, b with
  | Num x, Num y => Some (Num (x * y)%float)
  | _, _ => None
  end.

Definition div (a b : cell) : option cell :=
  match a, b with
  | Num x, Num y => Some (Num (x / y)%float)
  | _, _ => None
  end.

Definition add (a b : cell) : option cell :=
  match a, b with
  | Num x, Num y => Some (Num (x + y)%float)
  | _, _ => None
  end.

(** Column with column, entry by entry (the columns of one table have the
    same rows). *)
Definition zip_op (op : cell -> cell -> option cell) (s t : list cell) : option (list cell) :=
  mapM (fun p => op (fst p) (snd p)) (zip s t).

(** Column with a scalar: a column of floats and a text raise
    [TypeError], whatever the length of the column. *)
Definition scalar_op (op : cell -> cell -> option cell) (s : list cell) (k : cell) : option (list cell) :=
  match k with
  | Str _ => None
  | Num _ => mapM (fun c => op c k) s
  end.

(** numpy's sum of a column of floats ([pairwise_sum] of its add loop),
    for any addition: fewer than eight numbers are added in row order, from
    zero; up to 128 numbers are added in eight partial sums [r], entry [i]
    going to [r[i mod 8]] block of eight by block of eight, the partial sums
    are then added two by two, and the entries after the last whole block
    are added to the result in row order; more than 128 numbers are added
    in two parts, the first of them a multiple of eight long, and the two
    results added.  The order of the additions goes by the length alone. *)
Section pairwise.

Context {A : Type} (zero : A) (plus : A -> A -> A).

Fixpoint add_blocks (r a : list A) {struct a} : list A * list A :=
  match a with
  | a0 :: a1 :: a2 :: a3 :: a4 :: a5 :: a6 :: a7 :: rest =>
      add_blocks (zip_with plus r [a0; a1; a2; a3; a4; a5; a6; a7]) rest
  | _ => (r, a)
  end.

Definition unrolled_sum (a : list A) : A :=
  let '(r, rest) := add_blocks (take 8 a) (drop 8 a) in
  match r with
  | [r0; r1; r2; r3; r4; r5; r6; r7] =>
      fold_left plus rest
        (plus (plus (plus r0 r1) (plus r2 r3)) (plus (plus r4 r5) (plus r6 r7)))
  | _ => zero
  end.

(** [fuel] bounds the number of halvings; the length of the column is
    enough ([pairwise_sum_fuel]). *)
Fixpoint pairwise_sum (fuel : nat) (a : list A) : A :=
  let n := length a in
  if (n <? 8)%nat then fold_left plus a zero
  else if (n <=? 128)%nat then unrolled_sum a
  else match fuel with
       | O => zero
       | S fuel' =>
           let n2 := (n / 2 - (n / 2) mod 8)%nat in
           plus (pairwise_sum fuel' (take n2 a)) (pairwise_sum fuel' (drop n2 a))
       end.

End pairwise.

(** [s.sum()] ([skipna=True]) on a column of floats: pandas puts 0.0 in the
    place of every NaN and has numpy add the column up; numpy adds its sum
    to the 0.0 a sum starts from. *)
Definition fillna (c : cell) : option float :=
  match c with
  | Num x => Some (if is_nan x then 0%float else x)
  | Str _ => None
  end.

Definition sum (s : list cell) : option float :=
  a ← mapM fillna s;
  Some (0 + pairwise_sum 0%float PrimFloat.add (length a) a)%float.

(** [s.to_dict()] of a column [s] indexed by [index]: the pairs of label and
    value in row order; [d.get(key, default)] takes the last pair labelled
    [key]. *)
Definition to_dict (index values : list cell) : list (cell * cell) := zip index values.

(** [df.set_index(k)[v].to_dict()].  When the label [v] is repeated,
    [df.set_index(k)[v]] is the table of the columns labelled [v], and the
    dictionary of a table has the labels of its columns for keys: here the
    one key [v].  (Its value, a dictionary, is not modelled; the scripts ask
    for other keys.) *)
Definition indexed_to_dict (k v : string) (df : DataFrame) : option (list (cell * cell)) :=
  index ← column k df;
  if repeated v (columns df) then Some [(Str v, NaN)]
  else to_dict index <$> column v df.

Definition get (key : string) (dflt : cell) (d : list (cell * cell)) : cell :=
  fold_left (fun found p => if label_eqb (Str key) (fst p) then snd p else found) d dflt.

End pd.

Import pd.

(** ** The tables a run produces

    [dashboard_df] is the catalog after the row filter and the renaming
    (lines 17-23); the other columns are those the scripts then assign to
    it, one entry per row of [dashboard_df]; then the two rates read from
    the rate table, and the totals. *)

Record Output : Type := {
  dashboard_df : DataFrame;
  conversion_level : list cell;
  status : list string;
  pages : list float;
  base_hours : list cell;
  junior_pct : list cell;
  manager_pct : list cell;
  page_factor : list float;
  status_factor : list float;
  adjusted_hours : list cell;
  jr_hours : list cell;
  mgr_hours : list cell;
  jr_rate : cell;
  mgr_rate : cell;
  jr_cost : list cell;
  mgr_cost : list cell;
  total_cost : list cell;
  total_hours : float;
  total_jr_cost : float;
  total_mgr_cost : float;
  contractor_total_cost : float
}.

(** What the scripts take from pandas' text conversions: [str(x)] of a
    number, as [astype(str)] writes it (pandas writes NaN as "nan"; nothing
    below depends on the digits), and the number a text cell stands for
    under [pd.to_numeric(errors="coerce")], NaN when it is not a number. *)
Record Conversions : Type := {
  float_repr : float -> string;
  parse_number : string -> float
}.

(** [s.astype(str)] on one entry. *)
Definition astype_str (cv : Conversions) (c : cell) : string :=
  match c with
  | Str s => s
  | Num x => float_repr cv x
  end.

(** [pd.to_numeric(s, errors="coerce")] on one entry. *)
Definition to_numeric (cv : Conversions) (c : cell) : float :=
  match c with
  | Str s => parse_number cv s
  | Num x => x
  end.

Fixpoint scale_get (k : Z) (d : list (Z * float)) : option float :=
  match d with
  | [] => None
  | (k', v) :: d' => if (k =? k')%Z then Some v else scale_get k d'
  end.

(** ** dash_analysis.py: the comparison with a contractor at a flat rate *)

Module dash_analysis.

(** Lines 36-44. *)
Definition scale : list (Z * float) :=
  [ (1%Z, 1.00); (2%Z, 1.05); (3%Z, 1.10); (4%Z, 1.15); (5%Z, 1.20);
    (6%Z, 1.25); (7%Z, 1.30); (8%Z, 1.35); (9%Z, 1.40); (10%Z, 1.45) ]%float.

Definition page_multiplier (pages : float) : option float :=
  if is_nan pages then Some 1.0%float
  else
    n ← Py.int pages;
    let pages := Z.min n 10 in
    Some (default 1.0%float (scale_get pages scale)).

(** Lines 49-53. *)
Definition status_multiplier : list (string * float) :=
  [ ("active", 1.0); ("in progress", 1.1); ("broken", 1.3) ]%float.

(** Line 81. *)
Definition contractor_rate : float := 43%float.

(** Lines 12-82. *)
Definition run (cv : Conversions) (dashboard_catalog effort_levels hourly_rates : DataFrame)
  : option Output :=
  (* lines 12-14 *)
  let dashboard_df := normalize_columns dashboard_catalog in
  let effort_levels_df := normalize_columns effort_levels in
  let hourly_rates_df := normalize_columns hourly_rates in
  (* lines 17-23 *)
  let names := [ ("dashboard name", "dashboard");
                 ("data visualization tool", "tool");
                 ("estimated conversion level", "conversion_level");
                 ("available data pages", "pages") ] in
  let sheet := rename names dashboard_df in
  dashboard_df ← dropna ["dashboard name"; "estimated conversion level"] dashboard_df;
  let dashboard_df := rename names dashboard_df in
  (* lines 24-26; whether a column has .str goes by the dtype it got when the
     sheet was read, [sheet] being the catalog before its rows were dropped *)
  _ ← column "conversion_level" sheet ≫= str_accessor;
  conversion_level ← column "conversion_level" dashboard_df ≫= str_strip_lower;
  status ← map (fun c => Py.lower (Py.strip (astype_str cv c))) <$> column "status" dashboard_df;
  pages ← map (to_numeric cv) <$> column "pages" dashboard_df;
  (* lines 29-33 *)
  _ ← column "conversion level" effort_levels_df ≫= str_accessor;
  effort_index ← column "conversion level" effort_levels_df ≫= str_strip_lower;
  base_hours ← column "conversion rate hrs" effort_levels_df
                 ≫= (fun v => map_series effort_index v conversion_level);
  junior_pct ← column "junior analyst efforts" effort_levels_df
                 ≫= (fun v => map_series effort_index v conversion_level);
  manager_pct ← column "manager efforts" effort_levels_df
                 ≫= (fun v => map_series effort_index v conversion_level);
  (* line 46 *)
  page_factor ← mapM page_multiplier pages;
  (* line 54 *)
  let status_factor := map (fun s => default nan (dict_get s status_multiplier)) status in
  (* lines 57-61 *)
  adjusted_hours ← zip_op mul base_hours (map Num page_factor)
                     ≫= (fun t => zip_op mul t (map Num status_factor));
  (* lines 63-64 *)
  jr_hours ← scalar_op div junior_pct (Num 100) ≫= zip_op mul adjusted_hours;
  mgr_hours ← scalar_op div manager_pct (Num 100) ≫= zip_op mul adjusted_hours;
  (* lines 67-69 *)
  rates ← indexed_to_dict "position" "hourly rates" hourly_rates_df;
  let jr_rate := get "Junior Analyst" (Num 0) rates in
  let mgr_rate := get "Manager" (Num 0) rates in
  (* lines 71-73 *)
  jr_cost ← scalar_op mul jr_hours jr_rate;
  mgr_cost ← scalar_op mul mgr_hours mgr_rate;
  total_cost ← zip_op add jr_cost mgr_cost;
  (* lines 76-78 *)
  total_hours ← sum adjusted_hours;
  total_jr_cost ← sum jr_cost;
  total_mgr_cost ← sum mgr_cost;
  (* lines 81-82 *)
  let contractor_total_cost := (total_hours * contractor_rate)%float in
  Some {| dashboard_df := dashboard_df;
          conversion_level := conversion_level; status := status; pages := pages;
          base_hours := base_hours; junior_pct := junior_pct; manager_pct := manager_pct;
          page_factor := page_factor; status_factor := status_factor;
          adjusted_hours := adjusted_hours; jr_hours := jr_hours; mgr_hours := mgr_hours;
          jr_rate := jr_rate; mgr_rate := mgr_rate;
          jr_cost := jr_cost; mgr_cost := mgr_cost; total_cost := total_cost;
          total_hours := total_hours; total_jr_cost := total_jr_cost;
          total_mgr_cost := total_mgr_cost;
          contractor_total_cost := contractor_total_cost |}.

End dash_analysis.

(** ** dash_cat_analysis.py: the comparison with the junior analyst's rate *)

Module dash_cat_analysis.

(** Lines 35-51. *)
Definition scale : list (Z * float) :=
  [ (1%Z, 1.00);
    (2%Z, 1.05);
    (3%Z, 1.10);
    (4%Z, 1.15);
    (5%Z, 1.20);
    (6%Z, 1.25);
    (7%Z, 1.30);
    (8%Z, 1.35);
    (9%Z, 1.40);
    (10%Z, 1.45) ]%float.

Definition page_multiplier (pages : float) : option float :=
  if is_nan pages then Some 1.0%float
  else
    n ← Py.int pages;
    let pages := Z.min n 10 in
    Some (default 1.0%float (scale_get pages scale)).

(** Lines 56-60. *)
Definition status_multiplier : list (string * float) :=
  [ ("active", 1.0); ("in progress", 1.1); ("broken", 1.3) ]%float.

(** Lines 11-112. *)
Definition run (cv : Conversions) (dashboard_catalog effort_levels hourly_rates : DataFrame)
  : option Output :=
  (* lines 11-13 *)
  let dashboard_df := normalize_columns dashboard_catalog in
  let effort_levels_df := normalize_columns effort_levels in
  let hourly_rates_df := normalize_columns hourly_rates in
  (* lines 16-22 *)
  let names := [ ("dashboard name", "dashboard");
                 ("data visualization tool", "tool");
                 ("estimated conversion level", "conversion_level");
                 ("available data pages", "pages") ] in
  let sheet := rename names dashboard_df in
  dashboard_df ← dropna ["dashboard name"; "estimated conversion level"] dashboard_df;
  let dashboard_df := rename names dashboard_df in
  (* lines 23-25; whether a column has .str goes by the dtype it got when the
     sheet was read, [sheet] being the catalog before its rows were dropped *)
  _ ← column "conversion_level" sheet ≫= str_accessor;
  conversion_level ← column "conversion_level" dashboard_df ≫= str_strip_lower;
  status ← map (fun c => Py.lower (Py.strip (astype_str cv c))) <$> column "status" dashboard_df;
  pages ← map (to_numeric cv) <$> column "pages" dashboard_df;
  (* lines 28-32 *)
  _ ← column "conversion level" effort_levels_df ≫= str_accessor;
  effort_index ← column "conversion level" effort_levels_df ≫= str_strip_lower;
  base_hours ← column "conversion rate hrs" effort_levels_df
                 ≫= (fun v => map_series effort_index v conversion_level);
  junior_pct ← column "junior analyst efforts" effort_levels_df
                 ≫= (fun v => map_series effort_index v conversion_level);
  manager_pct ← column "manager efforts" effort_levels_df
                 ≫= (fun v => map_series effort_index v conversion_level);
  (* line 53 *)
  page_factor ← mapM page_multiplier pages;
  (* line 61 *)
  let status_factor := map (fun s => default nan (dict_get s status_multiplier)) status in
  (* lines 64-68 *)
  adjusted_hours ← zip_op mul base_hours (map Num page_factor)
                     ≫= (fun t => zip_op mul t (map Num status_factor));
  (* lines 71-72 *)
  jr_hours ← scalar_op div junior_pct (Num 100) ≫= zip_op mul adjusted_hours;
  mgr_hours ← scalar_op div manager_pct (Num 100) ≫= zip_op mul adjusted_hours;
  (* lines 75-77 *)
  rates ← indexed_to_dict "position" "hourly rates" hourly_rates_df;
  let jr_rate := get "Junior Analyst" (Num 0) rates in
  let mgr_rate := get "Manager" (Num 0) rates in
  (* lines 79-81 *)
  jr_cost ← scalar_op mul jr_hours jr_rate;
  mgr_cost ← scalar_op mul mgr_hours mgr_rate;
  total_cost ← zip_op add jr_cost mgr_cost;
  (* lines 84-85 *)
  total_jr_cost ← sum jr_cost;
  total_mgr_cost ← sum mgr_cost;
  (* line 109 *)
  total_hours ← sum adjusted_hours;
  (* line 112 *)
  contractor_total_cost ← mul (Num total_hours) jr_rate
                            ≫= (fun c => match c with Num x => Some x | Str _ => None end);
  Some {| dashboard_df := dashboard_df;
          conversion_level := conversion_level; status := status; pages := pages;
          base_hours := base_hours; junior_pct := junior_pct; manager_pct := manager_pct;
          page_factor := page_factor; status_factor := status_factor;
          adjusted_hours := adjusted_hours; jr_hours := jr_hours; mgr_hours := mgr_hours;
          jr_rate := jr_rate; mgr_rate := mgr_rate;
          jr_cost := jr_cost; mgr_cost := mgr_cost; total_cost := total_cost;
          total_hours := total_hours; total_jr_cost := total_jr_cost;
          total_mgr_cost := total_mgr_cost;
          contractor_total_cost := contractor_total_cost |}.

End dash_cat_analysis.

(** * The vocabulary of the properties *)

(** ** The steps of a run

    [Steps] lists what the two scripts have in common, step by step, as
    equations between the inputs and the columns of the output; the
    single-rate total is what differs and is left out. *)

Definition renaming : list (string * string) :=
  [ ("dashboard name", "dashboard");
    ("data visualization tool", "tool");
    ("estimated conversion level", "conversion_level");
    ("available data pages", "pages") ].

Record Steps (page_multiplier : float -> option float)
    (status_multiplier : list (string * float)) (cv : Conversions)
    (dashboard_catalog effort_levels hourly_rates : DataFrame) (out : Output) : Prop := {
  step_filter : exists df,
    dropna ["dashboard name"; "estimated conversion level"] (normalize_columns dashboard_catalog) = Some df /\
    dashboard_df out = rename renaming df;
  step_conversion_level : exists levels,
    column "conversion_level" (dashboard_df out) = Some levels /\
    str_strip_lower levels = Some (conversion_level out);
  step_status :
    map (fun c => Py.lower (Py.strip (astype_str cv c))) <$> column "status" (dashboard_df out)
    = Some (status out);
  step_pages :
    map (to_numeric cv) <$> column "pages" (dashboard_df out) = Some (pages out);
  step_effort : exists tiers effort_index hrs jr mgr,
    column "conversion level" (normalize_columns effort_levels) = Some tiers /\
    str_strip_lower tiers = Some effort_index /\
    column "conversion rate hrs" (normalize_columns effort_levels) = Some hrs /\
    map_series effort_index hrs (conversion_level out) = Some (base_hours out) /\
    column "junior analyst efforts" (normalize_columns effort_levels) = Some jr /\
    map_series effort_index jr (conversion_level out) = Some (junior_pct out) /\
    column "manager efforts" (normalize_columns effort_levels) = Some mgr /\
    map_series effort_index mgr (conversion_level out) = Some (manager_pct out);
  step_page_factor : mapM page_multiplier (pages out) = Some (page_factor out);
  step_status_factor :
    status_factor out = map (fun s => default nan (dict_get s status_multiplier)) (status out);
  step_adjusted_hours : exists t,
    zip_op mul (base_hours out) (map Num (page_factor out)) = Some t /\
    zip_op mul t (map Num (status_factor out)) = Some (adjusted_hours out);
  step_jr_hours : exists share,
    scalar_op div (junior_pct out) (Num 100) = Some share /\
    zip_op mul (adjusted_hours out) share = Some (jr_hours out);
  step_mgr_hours : exists share,
    scalar_op div (manager_pct out) (Num 100) = Some share /\
    zip_op mul (adjusted_hours out) share = Some (mgr_hours out);
  step_rates : exists rates,
    indexed_to_dict "position" "hourly rates" (normalize_columns hourly_rates) = Some rates /\
    jr_rate out = get "Junior Analyst" (Num 0) rates /\
    mgr_rate out = get "Manager" (Num 0) rates;
  step_jr_cost : scalar_op mul (jr_hours out) (jr_rate out) = Some (jr_cost out);
  step_mgr_cost : scalar_op mul (mgr_hours out) (mgr_rate out) = Some (mgr_cost out);
  step_total_cost : zip_op add (jr_cost out) (mgr_cost out) = Some (total_cost out);
  step_total_hours : sum (adjusted_hours out) = Some (total_hours out);
  step_total_jr_cost : sum (jr_cost out) = Some (total_jr_cost out);
  step_total_mgr_cost : sum (mgr_cost out) = Some (total_mgr_cost out);
  step_dtypes : exists read tiers,
    column "conversion_level" (rename renaming (normalize_columns dashboard_catalog)) = Some read /\
    str_accessor read = Some read /\
    column "conversion level" (normalize_columns effort_levels) = Some tiers /\
    str_accessor tiers = Some tiers
}.

(** ** Rows, totals and rates *)

(** The row [i] of a run: what the arithmetic reads, and what it writes. *)
Definition row_inputs (out : Output) (i : nat) (bh jp mp pf sf : float) : Prop :=
  base_hours out !! i = Some (Num bh) /\
  junior_pct out !! i = Some (Num jp) /\
  manager_pct out !! i = Some (Num mp) /\
  page_factor out !! i = Some pf /\
  status_factor out !! i = Some sf.

Definition row_results (out : Output) (i : nat) (ah jh mh jc mc tc : float) : Prop :=
  adjusted_hours out !! i = Some (Num ah) /\
  jr_hours out !! i = Some (Num jh) /\
  mgr_hours out !! i = Some (Num mh) /\
  jr_cost out !! i = Some (Num jc) /\
  mgr_cost out !! i = Some (Num mc) /\
  total_cost out !! i = Some (Num tc).

(** The number of catalog rows a run kept. *)
Definition nrows (out : Output) : nat := length (rows (dashboard_df out)).

(** Line 54 on one entry: the factor of a normalized status, NaN when the
    status is not a key of [status_multiplier]. *)
Definition status_factor_of (s : string) : float :=
  default nan (dict_get s dash_analysis.status_multiplier).



(** The tolerance of the specification, 1e-9. *)
Definition tolerance : Q := 1 # 1000000000.

(** The rate table has a row whose position is exactly [key]. *)
Definition has_position (key : string) (rates : DataFrame) : bool :=
  match column "position" (normalize_columns rates) with
  | Some position => existsb (label_eqb (Str key)) position
  | None => false
  end.

(** A zero of either sign, or NaN. *)
Definition zero_or_nan (z : float) : bool := (z =? 0)%float || is_nan z.

(** The label a column has after the renaming of lines 18-23. *)
Definition renamed (c : string) : string := default c (dict_get c renaming).

(** The row filter and renamer: lines 17-23, on the catalog with its headers
    normalized (line 12). *)
Definition row_filter (dashboard_catalog : DataFrame) : option DataFrame :=
  rename renaming
    <$> dropna ["dashboard name"; "estimated conversion level"]
          (normalize_columns dashboard_catalog).

(** ** Comparing two outputs *)

(** Two outputs agree on every column and total except the single-rate
    total. *)
Definition agree (o1 o2 : Output) : Prop :=
  dashboard_df o1 = dashboard_df o2 /\
  conversion_level o1 = conversion_level o2 /\
  status o1 = status o2 /\
  pages o1 = pages o2 /\
  base_hours o1 = base_hours o2 /\
  junior_pct o1 = junior_pct o2 /\
  manager_pct o1 = manager_pct o2 /\
  page_factor o1 = page_factor o2 /\
  status_factor o1 = status_factor o2 /\
  adjusted_hours o1 = adjusted_hours o2 /\
  jr_hours o1 = jr_hours o2 /\
  mgr_hours o1 = mgr_hours o2 /\
  jr_rate o1 = jr_rate o2 /\
  mgr_rate o1 = mgr_rate o2 /\
  jr_cost o1 = jr_cost o2 /\
  mgr_cost o1 = mgr_cost o2 /\
  total_cost o1 = total_cost o2 /\
  total_hours o1 = total_hours o2 /\
  total_jr_cost o1 = total_jr_cost o2 /\
  total_mgr_cost o1 = total_mgr_cost o2.

Definition with_contractor_total_cost (x : float) (o : Output) : Output :=
  {| dashboard_df := dashboard_df o;
     conversion_level := conversion_level o; status := status o; pages := pages o;
     base_hours := base_hours o; junior_pct := junior_pct o; manager_pct := manager_pct o;
     page_factor := page_factor o; status_factor := status_factor o;
     adjusted_hours := adjusted_hours o; jr_hours := jr_hours o; mgr_hours := mgr_hours o;
     jr_rate := jr_rate o; mgr_rate := mgr_rate o;
     jr_cost := jr_cost o; mgr_cost := mgr_cost o; total_cost := total_cost o;
     total_hours := total_hours o; total_jr_cost := total_jr_cost o;
     total_mgr_cost := total_mgr_cost o;
     contractor_total_cost := x |}.

(** ** Well-formed tables

    Tables as the scripts expect them: the headers are there and no two
    headers of a sheet are the same once normalized (and, in the catalog,
    renamed), the conversion levels of the named dashboards and the names of
    the effort tiers are text, the tiers have distinct names, the effort
    figures and the rates are numbers, and no page count is infinite.
    Nothing is asked of the status cells, of the spelling of the conversion
    levels, or of the positions in the rate table. *)

(** No two labels are the same. *)
Fixpoint distinct (l : list string) : bool :=
  match l with
  | [] => true
  | c :: l' => negb (existsb (String.eqb c) l') && distinct l'
  end.

(** The headers of each sheet are distinct as the scripts come to use them:
    normalized, and those of the catalog renamed.  (With a repeated label
    pandas makes [df[c]] a table, not a column.) *)
Definition distinct_headers (cat eff rates : DataFrame) : bool :=
  distinct (columns (rename renaming (normalize_columns cat)))
  && distinct (columns (normalize_columns eff))
  && distinct (columns (normalize_columns rates)).

Definition is_number (c : cell) : bool :=
  match c with
  | Num _ => true
  | Str _ => false
  end.

Definition infinite (x : float) : bool :=
  match Prim2SF x with
  | S754_infinity _ => true
  | _ => false
  end.

(** A column of text, some of it possibly missing, as pandas reads it from a
    sheet: with a text in it, unless the sheet has no rows. *)
Definition text_column (s : list cell) : bool :=
  forallb (fun c => is_text c || isna c) s
  && (existsb is_text s || match s with [] => true | _ :: _ => false end).

Definition has_column (c : string) (df : DataFrame) : bool :=
  match index_of c (columns df) with
  | Some _ => true
  | None => false
  end.

Definition column_all (p : cell -> bool) (c : string) (df : DataFrame) : bool :=
  match column c df with
  | Some v => forallb p v
  | None => false
  end.

Definition well_formed (cv : Conversions) (cat eff rates : DataFrame) : bool :=
  distinct_headers cat eff rates &&
  let cat := normalize_columns cat in
  let eff := normalize_columns eff in
  let rates := normalize_columns rates in
  has_column "dashboard name" cat
  && has_column "estimated conversion level" cat
  && has_column "status" (rename renaming cat)
  && column_all (fun c => negb (infinite (to_numeric cv c))) "pages" (rename renaming cat)
  && match column "conversion_level" (rename renaming cat) with
     | Some levels => text_column levels
     | None => false
     end
  && match column "conversion level" eff with
     | Some tiers => text_column tiers && unique_labels (map strip_lower tiers)
     | None => false
     end
  && column_all is_number "conversion rate hrs" eff
  && column_all is_number "junior analyst efforts" eff
  && column_all is_number "manager efforts" eff
  && has_column "position" rates
  && column_all is_number "hourly rates" rates.

(** ** Example tables *)

Module Example.

(** The text conversions are not exercised by tables whose status cells are
    text and whose page cells are numbers. *)
Definition cv : Conversions :=
  {| float_repr := fun _ => "nan"; parse_number := fun _ => nan |}.

Definition catalog_columns : list string :=
  ["Dashboard Name"; "Data Visualization Tool"; "Estimated Conversion Level";
   "Available Data Pages"; "Status"].

Definition effort_columns : list string :=
  ["Conversion Level"; "Conversion Rate Hrs"; "Junior Analyst Efforts"; "Manager Efforts"].

Definition rate_columns : list string := ["Position"; "Hourly Rates"].

(** The scenario of the specification: one dashboard "Sales", medium, three
    pages, active; medium is 10 hours split 70/30; rates 50 and 100. *)
Definition sales : DataFrame :=
  {| columns := catalog_columns;
     rows := [ [Str "Sales"; Str "Tableau"; Str "medium"; Num 3; Str "active"] ] |}.

Definition effort : DataFrame :=
  {| columns := effort_columns;
     rows := [ [Str "medium"; Num 10; Num 70; Num 30] ] |}.

Definition rates : DataFrame :=
  {| columns := rate_columns;
     rows := [ [Str "Junior Analyst"; Num 50]; [Str "Manager"; Num 100] ] |}.

(** The same dashboard with a status outside the table. *)
Definition sales_unknown : DataFrame :=
  {| columns := catalog_columns;
     rows := [ [Str "Sales"; Str "Tableau"; Str "medium"; Num 3; Str "unknown"] ] |}.

(** Shares that add up to 120. *)
Definition effort_overlapping : DataFrame :=
  {| columns := effort_columns;
     rows := [ [Str "medium"; Num 10; Num 70; Num 50] ] |}.

(** Three tiers of 0.1, 0.2 and 0.3 hours and a catalog with one one-page
    active dashboard of each, in two orders. *)
Definition effort_tenths : DataFrame :=
  {| columns := effort_columns;
     rows := [ [Str "low"; Num 0.1; Num 70; Num 30];
               [Str "medium"; Num 0.2; Num 70; Num 30];
               [Str "high"; Num 0.3; Num 70; Num 30] ] |}.

Definition catalog_ascending : DataFrame :=
  {| columns := catalog_columns;
     rows := [ [Str "A"; Str "Tableau"; Str "low"; Num 1; Str "active"];
               [Str "B"; Str "Tableau"; Str "medium"; Num 1; Str "active"];
               [Str "C"; Str "Tableau"; Str "high"; Num 1; Str "active"] ] |}.


(** A rate table whose positions are not spelled as the scripts spell
    them. *)
Definition rates_lowercase : DataFrame :=
  {| columns := rate_columns;
     rows := [ [Str "junior analyst"; Num 50]; [Str " Manager"; Num 100] ] |}.

(** The dashboard of the scenario with its level and status in other case
    and with blanks around them. *)
Definition sales_shouting : DataFrame :=
  {| columns := catalog_columns;
     rows := [ [Str "Sales"; Str "Tableau"; Str "  MEDIUM "; Num 3; Str " Active "] ] |}.

(** A rate table without the junior analyst. *)
Definition rates_manager_only : DataFrame :=
  {| columns := rate_columns;
     rows := [ [Str "Manager"; Num 100] ] |}.

(** A rate table with two rows for the junior analyst. *)
Definition rates_repeated : DataFrame :=
  {| columns := rate_columns;
     rows := [ [Str "Junior Analyst"; Num 35]; [Str "Manager"; Num 80];
               [Str "Junior Analyst"; Num 40] ] |}.

(** A rate table whose junior analyst rate was left empty. *)
Definition rates_blank : DataFrame :=
  {| columns := rate_columns;
     rows := [ [Str "Junior Analyst"; NaN]; [Str "Manager"; Num 100] ] |}.

(** Two dashboards; the second is the one of [sales]. *)
Definition two_dashboards : DataFrame :=
  {| columns := catalog_columns;
     rows := [ [Str "Stock"; Str "Tableau"; Str "high"; Num 12; Str "broken"];
               [Str "Sales"; Str "Tableau"; Str "medium"; Num 3; Str "active"] ] |}.

(** A catalog sheet with its headers and no dashboard. *)
Definition no_dashboards : DataFrame :=
  {| columns := catalog_columns; rows := [] |}.

(** The dashboard of the scenario with a page count that is not a number. *)
Definition sales_pages_text : DataFrame :=
  {| columns := catalog_columns;
     rows := [ [Str "Sales"; Str "Tableau"; Str "medium"; Str "n/a"; Str "active"] ] |}.

(** A rate table with a rate written as text. *)
Definition rates_text : DataFrame :=
  {| columns := rate_columns;
     rows := [ [Str "Junior Analyst"; Num 35]; [Str "Manager"; Str "80 per hour"] ] |}.

End Example.

(** ** Runs of either script *)

(** [out] is what one of the two scripts produces on the tables. *)
Definition either_run (cv : Conversions) (cat eff rates : DataFrame) (out : Output) : Prop :=
  dash_analysis.run cv cat eff rates = Some out \/
  dash_cat_analysis.run cv cat eff rates = Some out.

(** Both scripts raise on the tables. *)
Definition both_raise (cv : Conversions) (cat eff rates : DataFrame) : Prop :=
  dash_analysis.run cv cat eff rates = None /\
  dash_cat_analysis.run cv cat eff rates = None.

(** Both scripts get through their cost computation on the tables. *)
Definition both_finish (cv : Conversions) (cat eff rates : DataFrame) : Prop :=
  exists out1 out2,
    dash_analysis.run cv cat eff rates = Some out1 /\
    dash_cat_analysis.run cv cat eff rates = Some out2.

(** The headers the scripts read, after normalization: the two columns of
    the row filter, the status, the page count under its old or its new
    name, the four columns of the effort table and the two of the rate
    table. *)
Definition required_headers (cat eff rates : DataFrame) : bool :=
  let cat := normalize_columns cat in
  let eff := normalize_columns eff in
  let rates := normalize_columns rates in
  has_column "dashboard name" cat
  && has_column "estimated conversion level" cat
  && has_column "status" cat
  && (has_column "available data pages" cat || has_column "pages" cat)
  && has_column "conversion level" eff
  && has_column "conversion rate hrs" eff
  && has_column "junior analyst efforts" eff
  && has_column "manager efforts" eff
  && has_column "position" rates
  && has_column "hourly rates" rates.

(** Two sheets with the same rows whose headers are the same once
    normalized: they differ at most in the case of the headers and in the
    blanks around them. *)
Definition same_sheet (df df' : DataFrame) : Prop :=
  rows df = rows df' /\
  map (fun c => Py.lower (Py.strip c)) (columns df)
  = map (fun c => Py.lower (Py.strip c)) (columns df').

(** Row [a] is the last row of the rate table whose position is [key], and
    its hourly rate is [v]. *)
Definition rate_row (key : string) (rates : DataFrame) (a : nat) (v : cell) : Prop :=
  exists position rate,
    column "position" (normalize_columns rates) = Some position /\
    column "hourly rates" (normalize_columns rates) = Some rate /\
    position !! a = Some (Str key) /\
    rate !! a = Some v /\
    forall (b : nat) (c : cell),
      (a < b)%nat -> position !! b = Some c -> label_eqb (Str key) c = false.

(** The three columns of figures of the effort table hold numbers only, so
    that pandas reads them as columns of floats. *)
Definition numeric_effort (eff : DataFrame) : bool :=
  column_all is_number "conversion rate hrs" (normalize_columns eff)
  && column_all is_number "junior analyst efforts" (normalize_columns eff)
  && column_all is_number "manager efforts" (normalize_columns eff).

(** What a run holds for the dashboard of row [i], next to what it read of
    it. *)
Definition derived_row (out : Output) (i : nat) :=
  ( (base_hours out !! i, junior_pct out !! i, manager_pct out !! i),
    (page_factor out !! i, status_factor out !! i),
    (adjusted_hours out !! i, jr_hours out !! i, mgr_hours out !! i),
    (jr_cost out !! i, mgr_cost out !! i, total_cost out !! i) ).

(** ** Sums of floats *)





(** A zero of either sign. *)
Definition is_zero (x : float) : bool :=
  match Prim2SF x with
  | S754_zero _ => true
  | _ => false
  end.

(** * Properties *)

(** ** Floating-point facts

    NaN is absorbing, and a finite number times zero is a zero. *)

Section float_facts.

Lemma mul_nan_r (x : float) : (x * nan)%float = nan.
Proof.
  apply Prim2SF_inj. rewrite mul_spec.
  change (Prim2SF nan) with S754_nan.
  by destruct (Prim2SF x).
Qed.

Lemma mul_nan_l (x : float) : (nan * x)%float = nan.
Proof.
  apply Prim2SF_inj. rewrite mul_spec.
  by change (Prim2SF nan) with S754_nan.
Qed.

Lemma add_nan_l (x : float) : (nan + x)%float = nan.
Proof.
  apply Prim2SF_inj. rewrite add_spec.
  by change (Prim2SF nan) with S754_nan.
Qed.

Lemma add_nan_r (x : float) : (x + nan)%float = nan.
Proof.
  apply Prim2SF_inj. rewrite add_spec.
  change (Prim2SF nan) with S754_nan.
  by destruct (Prim2SF x).
Qed.

Lemma is_nan_spec (x : float) : is_nan x = true <-> x = nan.
Proof.
  unfold is_nan. rewrite FloatAxioms.eqb_spec. split.
  - intros H. apply Prim2SF_inj. change (Prim2SF nan) with S754_nan.
    destruct (Prim2SF x) as [s|s| |s m e]; try done; unfold SFeqb, SFcompare in H.
    + by destruct s.
    + destruct s; by rewrite Z.compare_refl, ?Pos.compare_cont_refl in H.
  - by intros ->.
Qed.

End float_facts.

(** ** The page factor *)

Section page_factor.

Import dash_analysis.

Lemma not_nan_of_Prim2SF (x : float) : Prim2SF x <> S754_nan -> is_nan x = false.
Proof.
  intros H. destruct (is_nan x) eqn:E; [|done].
  apply is_nan_spec in E. by subst.
Qed.

(** Inside the table the factor follows the linear rule, outside there is no
    entry. *)
Lemma scale_inside (k : Z) :
  (1 <= k <= 10)%Z ->
  scale_get k scale = Some (1.0 + 0.05 * Py.float_of_Z (k - 1))%float.
Proof.
  intros H.
  assert (k = 1 \/ k = 2 \/ k = 3 \/ k = 4 \/ k = 5 \/ k = 6 \/ k = 7 \/ k = 8 \/ k = 9 \/ k = 10)%Z
    as Hk by lia.
  repeat (destruct Hk as [-> | Hk]); try subst k; by vm_compute.
Qed.

Lemma scale_outside (k : Z) : ~ (1 <= k <= 10)%Z -> scale_get k scale = None.
Proof.
  intros H. unfold scale. simpl.
  repeat match goal with
         | |- context [(k =? ?c)%Z] => destruct (Z.eqb_spec k c); [lia|]
         end.
  done.
Qed.

(** [int] truncates and [floor] rounds down: they agree from 1 upwards, and
    are both below 1 otherwise. *)
Lemma int_floor (x : float) (n : Z) :
  floor x = Some n ->
  exists t, Py.int x = Some t /\ ((1 <= n)%Z -> t = n) /\ ((n < 1)%Z -> (t < 1)%Z).
Proof.
  unfold floor, Py.int. destruct (Prim2SF x) as [s|s| |s m e]; try done.
  - intros [= <-]. exists 0%Z. split; [done|lia].
  - intros [= <-]. destruct (Z.leb_spec 0 e) as [He|He].
    + destruct s; eexists; (split; [done|]); lia.
    + assert (0 < 2 ^ (- e))%Z as Hp by (apply Z.pow_pos_nonneg; lia).
      destruct s; eexists; (split; [done|]).
      * assert (Z.neg m `div` 2 ^ (- e) < 0)%Z by (apply Z.div_lt_upper_bound; lia).
        assert (0 <= Z.pos m / 2 ^ (- e))%Z by (apply Z.div_pos; lia).
        lia.
      * lia.
Qed.

(** The factor of a page count, from its floor. *)
Lemma page_multiplier_of_floor (p : float) (n : Z) :
  floor p = Some n ->
  page_multiplier p
  = Some (if (1 <=? Z.min n 10)%Z
          then (1.0 + 0.05 * Py.float_of_Z (Z.min n 10 - 1))%float
          else 1.0%float).
Proof.
  intros Hn. destruct (int_floor p n Hn) as (t & Ht & Hge & Hlt).
  assert (is_nan p = false) as Hnan.
  { apply not_nan_of_Prim2SF. intros E. unfold floor in Hn. by rewrite E in Hn. }
  unfold page_multiplier. rewrite Hnan, Ht. cbn [mbind option_bind].
  destruct (Z.leb_spec 1 (Z.min n 10)) as [H|H].
  - rewrite Hge by lia. rewrite scale_inside by lia. done.
  - rewrite scale_outside by lia. done.
Qed.


(** C2.  A missing page count has factor 1.0.  For a page count [p] with
    [effective_pages = min(floor(p), 10)]: when [effective_pages] is one of
    1..10 the factor is exactly [1.0 + 0.05 * (effective_pages - 1)], and
    when it is not (0 or negative) the factor is 1.0, not an error.  From
    one page upwards the factor is non-decreasing in the page count; 15
    pages give 1.45 and 0 pages give 1.0. *)
Theorem page_multiplier_spec :
  (forall p : float, is_nan p = true -> page_multiplier p = Some 1.0%float) /\
  (forall (p : float) (n : Z), floor p = Some n ->
     let effective_pages := Z.min n 10 in
     ((1 <= effective_pages <= 10)%Z ->
        page_multiplier p = Some (1.0 + 0.05 * Py.float_of_Z (effective_pages - 1))%float) /\
     (~ (1 <= effective_pages <= 10)%Z -> page_multiplier p = Some 1.0%float)) /\
  (forall (p q : float) (n m : Z), floor p = Some n -> floor q = Some m ->
     (1 <= n)%Z -> (n <= m)%Z ->
     exists x y : float,
       page_multiplier p = Some x /\ page_multiplier q = Some y /\ (x <=? y)%float = true) /\
  page_multiplier 15 = Some 1.45%float /\
  page_multiplier 0 = Some 1.0%float.
Proof.
  split; [|split; [|split]].
  - intros p Hp. unfold page_multiplier. by rewrite Hp.
  - intros p n Hn effective_pages. subst effective_pages.
    rewrite (page_multiplier_of_floor p n Hn). split; intros H.
    + destruct (Z.leb_spec 1 (Z.min n 10)); [done|lia].
    + destruct (Z.leb_spec 1 (Z.min n 10)); [lia|done].
  - intros p q n m Hn Hm H1 H2.
    rewrite (page_multiplier_of_floor p n Hn), (page_multiplier_of_floor q m Hm).
    destruct (Z.leb_spec 1 (Z.min n 10)); [|lia].
    destruct (Z.leb_spec 1 (Z.min m 10)); [|lia].
    assert (Z.min n 10 <= Z.min m 10)%Z as Hle by lia.
    assert (Z.min m 10 <= 10)%Z as Hten by lia.
    revert Hle Hten. generalize dependent (Z.min m 10). generalize dependent (Z.min n 10).
    intros a Ha b Hb Hab Hten.
    assert (a = 1 \/ a = 2 \/ a = 3 \/ a = 4 \/ a = 5 \/ a = 6 \/ a = 7 \/ a = 8 \/ a = 9 \/ a = 10)%Z
      as Ha' by lia.
    assert (b = 1 \/ b = 2 \/ b = 3 \/ b = 4 \/ b = 5 \/ b = 6 \/ b = 7 \/ b = 8 \/ b = 9 \/ b = 10)%Z
      as Hb' by lia.
    clear Ha Hb.
    repeat (destruct Ha' as [-> | Ha']); try subst a;
      repeat (destruct Hb' as [-> | Hb']); try subst b;
      try lia; eexists _, _; by vm_compute.
  - by vm_compute.
Qed.

Lemma page_multiplier_spec_witness :
  floor 3.7%float = Some 3%Z /\
  page_multiplier 3.7%float = Some (1.0 + 0.05 * Py.float_of_Z (Z.min 3 10 - 1))%float.
Proof.
  split; [by vm_compute|].
  apply (proj1 (proj2 page_multiplier_spec) 3.7%float 3%Z); [by vm_compute | simpl; lia].
Defined.

End page_factor.

(** ** A run is its steps *)

Ltac invert_binds H :=
  repeat match type of H with
         | _ ≫= _ = Some _ =>
             let x := fresh "x" in
             let E := fresh "E" in
             apply bind_Some in H; destruct H as (x & E & H)
         | (let _ := _ in _) = Some _ => cbv zeta in H
         end.

Lemma str_accessor_Some (s t : list cell) :
  str_accessor s = Some t <-> t = s /\ object_dtype s = true.
Proof.
  unfold str_accessor. destruct (object_dtype s); split; try done.
  - by intros [= ->].
  - by intros [-> _].
  - by intros [_ ?].
Qed.

Ltac dtypes :=
  repeat match goal with
         | E : str_accessor _ = Some _ |- _ => apply str_accessor_Some in E; destruct E as [-> E]
         end;
  repeat match goal with
         | E1 : column ?c ?df = Some _, E2 : column ?c ?df = Some _ |- _ =>
             rewrite E1 in E2; injection E2 as <-
         end.

Ltac steps_of_binds :=
  constructor; simpl; eauto 10;
  first [ eexists _, _, _, _, _; repeat split; eassumption
        | eexists _, _; repeat split; try eassumption;
          apply (proj2 (str_accessor_Some _ _)); (split; [reflexivity | assumption]) ].

(** A finished run of either script went through the steps, and the steps
    make the run. *)
Lemma dash_analysis_steps cv cat eff rates out :
  dash_analysis.run cv cat eff rates = Some out ->
  Steps dash_analysis.page_multiplier dash_analysis.status_multiplier cv cat eff rates out /\
  contractor_total_cost out = (total_hours out * 43)%float.
Proof.
  intros H. unfold dash_analysis.run in H. cbv zeta in H.
  invert_binds H.
  repeat match goal with E : _ ≫= _ = Some _ |- _ => invert_binds E end.
  injection H as <-. dtypes. split; [|done].
  steps_of_binds.
Qed.

Ltac fields :=
  cbn [dashboard_df conversion_level status pages base_hours junior_pct manager_pct
       page_factor status_factor adjusted_hours jr_hours mgr_hours jr_rate mgr_rate
       jr_cost mgr_cost total_cost total_hours total_jr_cost total_mgr_cost
       contractor_total_cost] in *.

Ltac use_steps :=
  repeat match goal with
         | H : exists _, _ |- _ => destruct H as (? & H)
         | H : _ /\ _ |- _ => destruct H as (? & H)
         end;
  repeat match goal with
         | E1 : column ?c ?df = Some _, E2 : column ?c ?df = Some _ |- _ =>
             rewrite E1 in E2; injection E2 as <-
         end;
  repeat match goal with
         | E : ?l = Some _ |- context [?l] =>
             rewrite E; cbn [mbind option_bind mret option_ret fmap option_fmap option_map]
         end.

Lemma dash_analysis_run_of_steps cv cat eff rates out :
  Steps dash_analysis.page_multiplier dash_analysis.status_multiplier cv cat eff rates out ->
  contractor_total_cost out = (total_hours out * 43)%float ->
  dash_analysis.run cv cat eff rates = Some out.
Proof.
  intros [] Hc. destruct out. fields.
  unfold dash_analysis.run. cbv zeta. fold renaming.
  use_steps. subst. use_steps. done.
Qed.

Lemma dash_cat_analysis_steps cv cat eff rates out :
  dash_cat_analysis.run cv cat eff rates = Some out ->
  Steps dash_cat_analysis.page_multiplier dash_cat_analysis.status_multiplier cv cat eff rates out /\
  exists jr, jr_rate out = Num jr /\ contractor_total_cost out = (total_hours out * jr)%float.
Proof.
  intros H. unfold dash_cat_analysis.run in H. cbv zeta in H.
  invert_binds H.
  repeat match goal with E : _ ≫= _ = Some _ |- _ => invert_binds E end.
  injection H as <-. dtypes. split.
  - steps_of_binds.
  - fields.
    match goal with E : mul _ ?r = Some ?c |- _ => destruct r as [|jr]; [done|]; destruct c; [done|] end.
    exists jr. split; [done|]. simpl in *. congruence.
Qed.

Lemma dash_cat_analysis_run_of_steps cv cat eff rates out jr :
  Steps dash_cat_analysis.page_multiplier dash_cat_analysis.status_multiplier cv cat eff rates out ->
  jr_rate out = Num jr ->
  contractor_total_cost out = (total_hours out * jr)%float ->
  dash_cat_analysis.run cv cat eff rates = Some out.
Proof.
  intros [] Hjr Hc. destruct out. fields.
  unfold dash_cat_analysis.run. cbv zeta. fold renaming.
  use_steps. subst. use_steps.
  match goal with E : get _ _ _ = Num _ |- _ => rewrite E end.
  done.
Qed.

(** The two files define the same page factor and the same status table. *)
Lemma page_multiplier_same : dash_cat_analysis.page_multiplier = dash_analysis.page_multiplier.
Proof. reflexivity. Qed.

Lemma status_multiplier_same : dash_cat_analysis.status_multiplier = dash_analysis.status_multiplier.
Proof. reflexivity. Qed.

(** ** Columns, entry by entry *)

Section columns.

Lemma column_Some c df s :
  column c df = Some s <->
  exists i, index_of c (columns df) = Some i /\
            repeated c (columns df) = false /\
            s = map (cell_at i) (rows df).
Proof.
  unfold column. destruct (index_of c (columns df)) as [i|]; cbn [mbind option_bind].
  - destruct (repeated c (columns df)); split.
    + done.
    + by intros (? & _ & ? & _).
    + intros [= <-]. by exists i.
    + by intros (? & [= <-] & _ & ->).
  - split; [done|]. by intros (? & ? & _).
Qed.

Lemma indexed_to_dict_Some k v df d :
  indexed_to_dict k v df = Some d ->
  exists index,
    column k df = Some index /\
    ((exists values, column v df = Some values /\ d = to_dict index values) \/
     (repeated v (columns df) = true /\ d = [(Str v, NaN)])).
Proof.
  unfold indexed_to_dict. intros H. apply bind_Some in H as (index & Hk & H).
  exists index. split; [done|].
  destruct (repeated v (columns df)).
  - right. by injection H as <-.
  - left. apply fmap_Some in H as (values & Hv & ->). by exists values.
Qed.

Lemma repeated_index_of c cols : repeated c cols = true -> is_Some (index_of c cols).
Proof.
  unfold repeated. intros H. apply Nat.ltb_lt in H.
  induction cols as [|c' cols IH]; simpl in *; [lia|].
  destruct (String.eqb c c'); [by eexists|].
  destruct IH as [i ->]; [lia|]. by eexists.
Qed.

Lemma column_length c df s : column c df = Some s -> length s = length (rows df).
Proof.
  intros H. apply column_Some in H as (i & _ & _ & ->).
  by rewrite length_map.
Qed.

Lemma distinct_occurrences (c : string) (cols : list string) :
  distinct cols = true -> (occurrences c cols <= 1)%nat.
Proof.
  induction cols as [|c' cols IH]; simpl; [lia|].
  intros H. apply andb_true_iff in H as [H1 H2]. specialize (IH H2).
  destruct (String.eqb_spec c c') as [->|]; [|lia].
  assert (occurrences c' cols = 0)%nat; [|lia].
  apply negb_true_iff in H1. clear IH H2.
  induction cols as [|d cols IH]; simpl in *; [done|].
  apply orb_false_iff in H1 as [-> H1]. by rewrite IH.
Qed.

Lemma distinct_not_repeated (c : string) (cols : list string) :
  distinct cols = true -> repeated c cols = false.
Proof.
  intros H. unfold repeated. apply Nat.ltb_ge. by apply distinct_occurrences.
Qed.

Lemma fmap_column_length {B} (f : cell -> B) c df s :
  map f <$> column c df = Some s -> length s = length (rows df).
Proof.
  intros H. apply fmap_Some in H as (s' & H & ->).
  rewrite length_map. by eapply column_length.
Qed.

Lemma str_strip_lower_length s u : str_strip_lower s = Some u -> length u = length s.
Proof.
  unfold str_strip_lower. destruct (has_str s); [|done].
  intros [= <-]. by rewrite length_map.
Qed.

Lemma map_series_length index values s u :
  map_series index values s = Some u -> length u = length s.
Proof.
  unfold map_series. destruct (unique_labels index); [|done].
  intros [= <-]. by rewrite length_map.
Qed.

Lemma zip_op_length op s t u :
  zip_op op s t = Some u -> length u = (length s `min` length t)%nat.
Proof.
  unfold zip_op. intros H. apply length_mapM in H. by rewrite <- H, length_zip.
Qed.

Lemma scalar_op_length op s k u : scalar_op op s k = Some u -> length u = length s.
Proof.
  unfold scalar_op. destruct k; [done|]. intros H. by apply length_mapM in H.
Qed.

Lemma zip_op_lookup op s t u i c :
  zip_op op s t = Some u -> u !! i = Some c ->
  exists a b, s !! i = Some a /\ t !! i = Some b /\ op a b = Some c.
Proof.
  unfold zip_op. intros H Hc. apply mapM_Some in H.
  destruct (Forall2_lookup_r _ _ _ _ _ H Hc) as ([a b] & Hab & Hop).
  apply lookup_zip_with_Some in Hab as (a' & b' & [= <- <-] & Ha & Hb).
  by exists a, b.
Qed.

Lemma scalar_op_lookup op s k u i c :
  scalar_op op s k = Some u -> u !! i = Some c ->
  exists a, s !! i = Some a /\ op a k = Some c.
Proof.
  unfold scalar_op. destruct k as [|x]; [done|]. intros H Hc. apply mapM_Some in H.
  destruct (Forall2_lookup_r _ _ _ _ _ H Hc) as (a & Ha & Hop).
  by exists a.
Qed.

Lemma scalar_op_number op s k u :
  scalar_op op s k = Some u -> exists x, k = Num x.
Proof. unfold scalar_op. destruct k as [|x]; [done|]. by exists x. Qed.

Lemma lookup_map {A B} (f : A -> B) (l : list A) (i : nat) :
  map f l !! i = f <$> l !! i.
Proof. revert i. induction l as [|a l IH]; intros [|i]; simpl; auto. Qed.

Lemma lookup_map_Some {A B} (f : A -> B) (l : list A) (i : nat) (b : B) :
  map f l !! i = Some b -> exists a, l !! i = Some a /\ b = f a.
Proof.
  rewrite lookup_map. intros H. apply fmap_Some in H as (a & Ha & ->). by exists a.
Qed.

Lemma mul_Some a b c :
  mul a b = Some c -> exists x y, a = Num x /\ b = Num y /\ c = Num (x * y)%float.
Proof. destruct a, b; try done. intros [= <-]. by eexists _, _. Qed.

Lemma div_Some a b c :
  div a b = Some c -> exists x y, a = Num x /\ b = Num y /\ c = Num (x / y)%float.
Proof. destruct a, b; try done. intros [= <-]. by eexists _, _. Qed.

Lemma add_Some a b c :
  add a b = Some c -> exists x y, a = Num x /\ b = Num y /\ c = Num (x + y)%float.
Proof. destruct a, b; try done. intros [= <-]. by eexists _, _. Qed.

End columns.

Section rows.

Context {pm : float -> option float} {sm : list (string * float)} {cv : Conversions}
  {cat eff rates : DataFrame} {out : Output}.
Hypothesis steps : Steps pm sm cv cat eff rates out.

(** Every column of a run has one entry per row of the filtered catalog. *)
Lemma steps_lengths :
  length (conversion_level out) = nrows out /\
  length (status out) = nrows out /\
  length (pages out) = nrows out /\
  length (base_hours out) = nrows out /\
  length (junior_pct out) = nrows out /\
  length (manager_pct out) = nrows out /\
  length (page_factor out) = nrows out /\
  length (status_factor out) = nrows out /\
  length (adjusted_hours out) = nrows out /\
  length (jr_hours out) = nrows out /\
  length (mgr_hours out) = nrows out /\
  length (jr_cost out) = nrows out /\
  length (mgr_cost out) = nrows out /\
  length (total_cost out) = nrows out.
Proof.
  destruct steps. unfold nrows.
  destruct step_conversion_level0 as (levels & L0 & L1).
  apply column_length in L0. apply str_strip_lower_length in L1.
  pose proof (fmap_column_length _ _ _ _ step_status0) as L2.
  pose proof (fmap_column_length _ _ _ _ step_pages0) as L3.
  destruct step_effort0 as (tiers & ix & hrs & jr & mgr & _ & _ & _ & E1 & _ & E2 & _ & E3).
  apply map_series_length in E1, E2, E3.
  pose proof (length_mapM _ _ _ step_page_factor0) as L4.
  pose proof (f_equal length step_status_factor0) as L5. rewrite length_map in L5.
  destruct step_adjusted_hours0 as (t & E4 & E5). apply zip_op_length in E4, E5.
  rewrite !length_map in *.
  destruct step_jr_hours0 as (sj & E6 & E7). apply scalar_op_length in E6. apply zip_op_length in E7.
  destruct step_mgr_hours0 as (sg & E8 & E9). apply scalar_op_length in E8. apply zip_op_length in E9.
  apply scalar_op_length in step_jr_cost0, step_mgr_cost0.
  apply zip_op_length in step_total_cost0.
  repeat split; lia.
Qed.

(** What the run holds in row [i]. *)
Lemma steps_row (i : nat) :
  (i < nrows out)%nat ->
  exists (st : string) (bh jp mp pf sf jr mr : float),
    status out !! i = Some st /\
    sf = default nan (dict_get st sm) /\
    jr_rate out = Num jr /\ mgr_rate out = Num mr /\
    row_inputs out i bh jp mp pf sf /\
    let ah := (bh * pf * sf)%float in
    let jh := (ah * (jp / 100))%float in
    let mh := (ah * (mp / 100))%float in
    let jc := (jh * jr)%float in
    let mc := (mh * mr)%float in
    row_results out i ah jh mh jc mc (jc + mc)%float.
Proof.
  intros Hi. pose proof steps_lengths as L. destruct steps.
  assert (is_Some (total_cost out !! i)) as [tc Htc] by (apply lookup_lt_is_Some; lia).
  destruct (zip_op_lookup _ _ _ _ _ _ step_total_cost0 Htc) as (jc & mc & Hjc & Hmc & Hadd).
  apply add_Some in Hadd as (jcx & mcx & -> & -> & ->).
  destruct (scalar_op_lookup _ _ _ _ _ _ step_jr_cost0 Hjc) as (jh & Hjh & Hm1).
  apply mul_Some in Hm1 as (jhx & jr & -> & Hjr & [= ->]).
  destruct (scalar_op_lookup _ _ _ _ _ _ step_mgr_cost0 Hmc) as (mh & Hmh & Hm2).
  apply mul_Some in Hm2 as (mhx & mr & -> & Hmr & [= ->]).
  destruct step_jr_hours0 as (sj & Hsj & Hzj).
  destruct (zip_op_lookup _ _ _ _ _ _ Hzj Hjh) as (ah & q & Hah & Hq & Hm3).
  apply mul_Some in Hm3 as (ahx & qx & -> & -> & [= ->]).
  destruct (scalar_op_lookup _ _ _ _ _ _ Hsj Hq) as (jp & Hjp & Hd1).
  apply div_Some in Hd1 as (jpx & ? & -> & [= <-] & [= ->]).
  destruct step_mgr_hours0 as (sg & Hsg & Hzg).
  destruct (zip_op_lookup _ _ _ _ _ _ Hzg Hmh) as (ah' & q' & Hah' & Hq' & Hm4).
  rewrite Hah in Hah'. injection Hah' as <-.
  apply mul_Some in Hm4 as (? & qx' & [= <-] & -> & [= ->]).
  destruct (scalar_op_lookup _ _ _ _ _ _ Hsg Hq') as (mp & Hmp & Hd2).
  apply div_Some in Hd2 as (mpx & ? & -> & [= <-] & [= ->]).
  destruct step_adjusted_hours0 as (t & Ht & Hza).
  destruct (zip_op_lookup _ _ _ _ _ _ Hza Hah) as (tt & sfc & Htt & Hsf & Hm5).
  apply lookup_map_Some in Hsf as (sf & Hsf & ->).
  apply mul_Some in Hm5 as (ttx & ? & -> & [= <-] & [= ->]).
  destruct (zip_op_lookup _ _ _ _ _ _ Ht Htt) as (bh & pfc & Hbh & Hpf & Hm6).
  apply lookup_map_Some in Hpf as (pf & Hpf & ->).
  apply mul_Some in Hm6 as (bhx & ? & -> & [= <-] & [= ->]).
  pose proof Hsf as Hst. rewrite step_status_factor0 in Hst.
  apply lookup_map_Some in Hst as (st & Hst & ->).
  exists st, bhx, jpx, mpx, pf, (default nan (dict_get st sm)), jr, mr.
  unfold row_inputs, row_results. cbv zeta. by repeat split.
Qed.

End rows.

(** ** Adding a column up *)

Section pairwise_facts.

Context {A B : Type} (R : A -> B -> Prop).
Context (zero : A) (zero' : B) (plus : A -> A -> A) (plus' : B -> B -> B).
Hypothesis R_zero : R zero zero'.
Hypothesis R_plus : forall x x' y y', R x x' -> R y y' -> R (plus x y) (plus' x' y').

Lemma fold_left_related (a : list A) (b : list B) (x : A) (x' : B) :
  Forall2 R a b -> R x x' -> R (fold_left plus a x) (fold_left plus' b x').
Proof.
  intros H. revert x x'. induction H as [|y y' a b Hy _ IH]; intros x x' Hx; simpl; [done|].
  apply IH. by apply R_plus.
Qed.

Lemma zip_with_related (r a : list A) (r' b : list B) :
  Forall2 R r r' -> Forall2 R a b -> Forall2 R (zip_with plus r a) (zip_with plus' r' b).
Proof.
  intros H. revert a b. induction H as [|x x' r r' Hx _ IH]; intros a b Hab; simpl; [done|].
  destruct Hab as [|y y' a b Hy Hab]; [done|]. constructor; [by apply R_plus | by apply IH].
Qed.

Lemma add_blocks_related (n : nat) :
  forall (a : list A) (b : list B) (r : list A) (r' : list B),
    (length a <= n)%nat -> Forall2 R r r' -> Forall2 R a b ->
    Forall2 R (add_blocks plus r a).1 (add_blocks plus' r' b).1 /\
    Forall2 R (add_blocks plus r a).2 (add_blocks plus' r' b).2.
Proof.
  induction n as [|n IH]; intros a b r r' Hn Hr Hab.
  { destruct Hab; [done|]. simpl in Hn. lia. }
  do 8 (destruct Hab as [|? ? ? ? ? Hab]; [by repeat constructor|]).
  cbn [add_blocks]. apply IH.
  - simpl in Hn. lia.
  - apply zip_with_related; [done|]. by repeat constructor.
  - done.
Qed.

Lemma unrolled_sum_related (a : list A) (b : list B) :
  Forall2 R a b -> R (unrolled_sum zero plus a) (unrolled_sum zero' plus' b).
Proof.
  intros Hab. unfold unrolled_sum.
  destruct (add_blocks_related (length (drop 8 a)) (drop 8 a) (drop 8 b) (take 8 a) (take 8 b))
    as [Hr Hrest]; [done | by apply Forall2_take | by apply Forall2_drop |].
  destruct (add_blocks plus _ _) as [r rest], (add_blocks plus' _ _) as [r' rest'].
  simpl in Hr, Hrest.
  do 8 (destruct Hr as [|? ? ? ? ? Hr]; [done|]).
  destruct Hr; [|done].
  apply fold_left_related; [done|]. auto 10.
Qed.

Lemma pairwise_sum_related (fuel : nat) :
  forall (a : list A) (b : list B),
    Forall2 R a b -> R (pairwise_sum zero plus fuel a) (pairwise_sum zero' plus' fuel b).
Proof.
  induction fuel as [|fuel IH]; intros a b Hab; simpl;
    rewrite <- (Forall2_length _ _ _ Hab).
  - destruct (_ <? 8)%nat; [by apply fold_left_related|].
    destruct (_ <=? 128)%nat; [by apply unrolled_sum_related | done].
  - destruct (_ <? 8)%nat; [by apply fold_left_related|].
    destruct (_ <=? 128)%nat; [by apply unrolled_sum_related|].
    apply R_plus; apply IH; [by apply Forall2_take | by apply Forall2_drop].
Qed.

End pairwise_facts.

(** Every entry is added once: with lists for numbers and concatenation for
    addition, the sum holds the entries of all the lists, and the zero as
    often as a sum was started from it. *)
Section pairwise_terms.

Context {A : Type}.
Implicit Types (a r : list (list A)) (z : list A).





End pairwise_terms.

(** The two parts of a column of more than 128 entries are shorter than
    the column. *)
Lemma halves_shorter (n : nat) :
  (128 < n)%nat -> (0 < n / 2 - (n / 2) mod 8 < n)%nat.
Proof.
  intros Hn.
  assert (64 <= n / 2)%nat by (apply Nat.div_le_lower_bound; lia).
  assert (n / 2 < n)%nat by (apply Nat.div_lt; lia).
  assert ((n / 2) mod 8 < 8)%nat by (apply Nat.mod_upper_bound; lia).
  lia.
Qed.


(** The fuel does not run out when it is at least the length. *)
Lemma pairwise_sum_fuel {A} (zero : A) (plus : A -> A -> A) (f : nat) :
  forall (f' : nat) (a : list A),
    (length a <= f)%nat -> (length a <= f')%nat ->
    pairwise_sum zero plus f a = pairwise_sum zero plus f' a.
Proof.
  induction f as [|f IH]; intros f' a Hf Hf'.
  - destruct a; [|simpl in Hf; lia]. by destruct f'.
  - destruct f' as [|f']; [destruct a; [done | simpl in Hf'; lia]|].
    cbn [pairwise_sum]. destruct (Nat.ltb_spec (length a) 8); [done|].
    destruct (Nat.leb_spec (length a) 128); [done|].
    pose proof (halves_shorter (length a)) as Hh.
    f_equal; apply IH; rewrite ?length_take, ?length_drop; lia.
Qed.

(** *** The sum of a column *)

Section sums.

Lemma is_zero_add (x y : float) :
  is_zero x = true -> is_zero y = true -> is_zero (x + y) = true.
Proof.
  unfold is_zero. rewrite add_spec.
  destruct (Prim2SF x) as [s| | |], (Prim2SF y) as [s'| | |]; try done.
  intros _ _. by destruct s, s'.
Qed.

Lemma add_zero_is_zero (x : float) : is_zero x = true -> (0 + x)%float = 0%float.
Proof.
  unfold is_zero. intros H. apply Prim2SF_inj. rewrite add_spec.
  change (Prim2SF 0) with (S754_zero false).
  destruct (Prim2SF x) as [s| | |]; try done. by destruct s.
Qed.

Lemma is_zero_fillna (z : float) :
  zero_or_nan z = true -> is_zero (if is_nan z then 0%float else z) = true.
Proof.
  unfold zero_or_nan, is_zero. destruct (is_nan z); [intros _; by vm_compute|].
  rewrite orb_false_r, FloatAxioms.eqb_spec. change (Prim2SF 0) with (S754_zero false).
  destruct (Prim2SF z) as [s|s| |s m e]; try done; by destruct s.
Qed.

Lemma pairwise_sum_zeros (fuel : nat) (a : list float) :
  Forall (fun x => is_zero x = true) a ->
  is_zero (pairwise_sum 0%float PrimFloat.add fuel a) = true.
Proof.
  intros H.
  apply (pairwise_sum_related (fun x (_ : unit) => is_zero x = true)
           0%float tt PrimFloat.add (fun _ _ => tt) eq_refl
           (fun x _ y _ => is_zero_add x y) fuel a (map (fun _ => tt) a)).
  induction H; simpl; by constructor.
Qed.

Lemma mapM_fillna_numbers (s : list cell) :
  forallb is_number s = true -> is_Some (mapM fillna s).
Proof.
  intros H. apply (mapM_is_Some_2 fillna). apply Forall_forall. intros c Hc.
  rewrite forallb_forall in H. specialize (H c (proj1 (list_elem_of_In _ _) Hc)).
  destruct c; [done|]. by eexists.
Qed.

Lemma sum_numbers s : forallb is_number s = true -> is_Some (sum s).
Proof.
  intros H. unfold sum. destruct (mapM_fillna_numbers s H) as [a ->]. by eexists.
Qed.

(** Entries that are zeros or NaN add up to 0.0. *)
Lemma sum_zeros (s : list cell) :
  Forall (fun c => exists z, c = Num z /\ zero_or_nan z = true) s ->
  sum s = Some 0%float.
Proof.
  intros H. unfold sum.
  assert (exists a, mapM fillna s = Some a /\ Forall (fun x => is_zero x = true) a)
    as (a & -> & Ha).
  { induction H as [|c s (z & -> & Hz) _ (a & IH & Ha)]; [by exists []|].
    exists ((if is_nan z then 0%float else z) :: a). cbn [mapM fillna].
    rewrite IH. split; [done|]. constructor; [by apply is_zero_fillna | done]. }
  cbn [mbind option_bind]. f_equal. by apply add_zero_is_zero, pairwise_sum_zeros.
Qed.








End sums.

(** ** The cost model, row by row *)

(** C1.  For every catalog row the run computes
    [adjusted_hours = base_hours * page_factor * status_factor],
    [jr_hours = adjusted_hours * (junior_pct / 100)],
    [mgr_hours = adjusted_hours * (manager_pct / 100)],
    [jr_cost = jr_hours * jr_rate], [mgr_cost = mgr_hours * mgr_rate] and
    [total_cost = jr_cost + mgr_cost]; and nothing checks that the two shares
    add up to 100: a run with shares 70 and 50 goes through. *)
Theorem cost_model_formulas :
  (forall cv cat eff rates out (i : nat),
     dash_analysis.run cv cat eff rates = Some out ->
     (i < nrows out)%nat ->
     exists bh jp mp pf sf jr mr : float,
       jr_rate out = Num jr /\ mgr_rate out = Num mr /\
       row_inputs out i bh jp mp pf sf /\
       let ah := (bh * pf * sf)%float in
       let jh := (ah * (jp / 100))%float in
       let mh := (ah * (mp / 100))%float in
       let jc := (jh * jr)%float in
       let mc := (mh * mr)%float in
       row_results out i ah jh mh jc mc (jc + mc)%float) /\
  (exists out,
     dash_analysis.run Example.cv Example.sales Example.effort_overlapping Example.rates = Some out /\
     junior_pct out = [Num 70] /\ manager_pct out = [Num 50] /\
     (70 + 50 =? 100)%float = false).
Proof.
  split.
  - intros cv cat eff rates out i Hrun Hi.
    apply dash_analysis_steps in Hrun as [steps _].
    destruct (steps_row steps i Hi) as (st & bh & jp & mp & pf & sf & jr & mr & _ & _ & H).
    exists bh, jp, mp, pf, sf, jr, mr. tauto.
  - eexists. split; [by vm_compute|]. by vm_compute.
Qed.

Lemma cost_model_formulas_witness :
  exists bh jp mp pf sf jr mr : float,
  exists out,
    dash_analysis.run Example.cv Example.sales Example.effort Example.rates = Some out /\
    jr_rate out = Num jr /\ mgr_rate out = Num mr /\
    row_inputs out 0 bh jp mp pf sf /\
    row_results out 0 (bh * pf * sf) (bh * pf * sf * (jp / 100)) (bh * pf * sf * (mp / 100))
      (bh * pf * sf * (jp / 100) * jr) (bh * pf * sf * (mp / 100) * mr)
      (bh * pf * sf * (jp / 100) * jr + bh * pf * sf * (mp / 100) * mr).
Proof.
  destruct (dash_analysis.run Example.cv Example.sales Example.effort Example.rates)
    as [out|] eqn:Hrun; [|by vm_compute in Hrun].
  assert (0 < nrows out)%nat as Hi.
  { vm_compute in Hrun. injection Hrun as <-. vm_compute. lia. }
  destruct (proj1 cost_model_formulas _ _ _ _ out 0%nat Hrun Hi)
    as (bh & jp & mp & pf & sf & jr & mr & H1 & H2 & H3 & H4).
  exists bh, jp, mp, pf, sf, jr, mr, out. tauto.
Defined.

(** ** The two scripts *)

Lemma agree_with_contractor_total_cost x o : agree o (with_contractor_total_cost x o).
Proof. by repeat split. Qed.

Lemma steps_with_contractor_total_cost pm sm cv cat eff rates out x :
  Steps pm sm cv cat eff rates out ->
  Steps pm sm cv cat eff rates (with_contractor_total_cost x out).
Proof. intros []. by constructor. Qed.

(** C6.  On the same three tables the two scripts either both raise or both
    finish, with the same columns (page_factor, status_factor,
    adjusted_hours, jr_hours, mgr_hours, jr_cost, mgr_cost, total_cost and
    the rest) and the same total_hours, total_jr_cost and total_mgr_cost;
    the single-rate total is [total_hours * 43] in dash_analysis.py and
    [total_hours * jr_rate] in dash_cat_analysis.py. *)
Theorem scripts_agree (cv : Conversions) (cat eff rates : DataFrame) :
  match dash_analysis.run cv cat eff rates, dash_cat_analysis.run cv cat eff rates with
  | Some o1, Some o2 =>
      agree o1 o2 /\
      contractor_total_cost o1 = (total_hours o1 * 43)%float /\
      exists jr, jr_rate o2 = Num jr /\ contractor_total_cost o2 = (total_hours o2 * jr)%float
  | None, None => True
  | _, _ => False
  end.
Proof.
  destruct (dash_analysis.run cv cat eff rates) as [o1|] eqn:H1.
  - apply dash_analysis_steps in H1 as [steps Hc].
    destruct (scalar_op_number _ _ _ _ (step_jr_cost _ _ _ _ _ _ _ steps)) as [jr Hjr].
    rewrite (dash_cat_analysis_run_of_steps cv cat eff rates
               (with_contractor_total_cost (total_hours o1 * jr) o1) jr); try done.
    + split; [apply agree_with_contractor_total_cost|]. split; [done|]. by exists jr.
    + by apply steps_with_contractor_total_cost.
  - destruct (dash_cat_analysis.run cv cat eff rates) as [o2|] eqn:H2; [|done].
    apply dash_cat_analysis_steps in H2 as [steps _].
    rewrite (dash_analysis_run_of_steps cv cat eff rates
               (with_contractor_total_cost (total_hours o2 * 43) o2)) in H1; try done.
    by apply steps_with_contractor_total_cost.
Qed.

(** ** Runs that finish *)

Section progress.

Lemma index_of_map (f : string -> string) c cols i :
  index_of c cols = Some i -> is_Some (index_of (f c) (map f cols)).
Proof.
  revert i. induction cols as [|c' cols IH]; intros i; simpl; [done|].
  destruct (String.eqb_spec c c') as [->|Hne].
  - rewrite String.eqb_refl. by eexists.
  - destruct (f c =? f c')%string; [by eexists|].
    destruct (index_of c cols) as [j|]; [|done]. intros _.
    destruct (IH j eq_refl) as [k ->]. by eexists.
Qed.

Lemma forallb_map_filter {A B} (p : B -> bool) (f : A -> B) (q : A -> bool) (l : list A) :
  forallb p (map f l) = true -> forallb p (map f (List.filter q l)) = true.
Proof.
  induction l as [|a l IH]; simpl; [done|].
  intros H. apply andb_true_iff in H as [H1 H2].
  destruct (q a); simpl; [rewrite H1|]; auto.
Qed.

Lemma find_label_number k index values :
  forallb is_number values = true -> is_number (find_label k index values) = true.
Proof.
  revert values. induction index as [|l index IH]; intros [|v values]; simpl; try done.
  intros H. apply andb_true_iff in H as [H1 H2].
  destruct (label_eqb k l); auto.
Qed.

Lemma map_series_numbers index values s :
  unique_labels index = true -> forallb is_number values = true ->
  exists u, map_series index values s = Some u /\ forallb is_number u = true.
Proof.
  intros Hu Hv. unfold map_series. rewrite Hu. eexists. split; [done|].
  induction s as [|k s IH]; simpl; [done|].
  by rewrite find_label_number, IH.
Qed.

Lemma zip_op_numbers op s t :
  (forall x y, exists z, op (Num x) (Num y) = Some (Num z)) ->
  length s = length t ->
  forallb is_number s = true -> forallb is_number t = true ->
  exists u, zip_op op s t = Some u /\ forallb is_number u = true /\ length u = length s.
Proof.
  intros Hop. unfold zip_op. revert t.
  induction s as [|a s IH]; intros [|b t]; simpl; try done.
  - by exists [].
  - intros [= Hl] Hs Ht.
    apply andb_true_iff in Hs as [Ha Hs]. apply andb_true_iff in Ht as [Hb Ht].
    destruct (IH t Hl Hs Ht) as (u & Hu & Hn & Hlen).
    destruct a as [|x]; [done|]. destruct b as [|y]; [done|].
    destruct (Hop x y) as [z Hz].
    exists (Num z :: u). simpl in *. rewrite Hz. simpl. rewrite Hu. simpl.
    by rewrite Hn, Hlen.
Qed.

Lemma scalar_op_numbers op s k :
  (forall x y, exists z, op (Num x) (Num y) = Some (Num z)) ->
  is_number k = true -> forallb is_number s = true ->
  exists u, scalar_op op s k = Some u /\ forallb is_number u = true /\ length u = length s.
Proof.
  intros Hop Hk. unfold scalar_op. destruct k as [|y]; [done|].
  induction s as [|a s IH]; simpl.
  - by exists [].
  - intros Hs. apply andb_true_iff in Hs as [Ha Hs].
    destruct (IH Hs) as (u & Hu & Hn & Hlen).
    destruct a as [|x]; [done|]. destruct (Hop x y) as [z Hz].
    exists (Num z :: u). simpl in *. rewrite Hz. simpl. rewrite Hu. simpl.
    by rewrite Hn, Hlen.
Qed.

Lemma forallb_map_Num (l : list float) : forallb is_number (map Num l) = true.
Proof. induction l; simpl; auto. Qed.

Lemma get_number key d :
  forallb is_number (map snd d) = true -> is_number (get key (Num 0) d) = true.
Proof.
  unfold get. assert (is_number (Num 0) = true) as Hacc by done.
  revert Hacc. generalize (Num 0).
  induction d as [|[k v] d IH]; intros acc Hacc; simpl; [done|].
  intros H. apply andb_true_iff in H as [Hv Hd].
  apply IH; [|done]. destruct k; simpl; [case_match|]; done.
Qed.

Lemma snd_zip_numbers (s t : list cell) :
  forallb is_number t = true -> forallb is_number (map snd (zip s t)) = true.
Proof.
  revert t. induction s as [|a s IH]; intros [|b t]; simpl; try done.
  intros H. apply andb_true_iff in H as [Hb Ht]. by rewrite Hb, IH.
Qed.

Lemma page_multiplier_finite (x : float) :
  infinite x = false -> is_Some (dash_analysis.page_multiplier x).
Proof.
  unfold infinite, dash_analysis.page_multiplier, Py.int. intros H.
  destruct (is_nan x) eqn:E; [by eexists|].
  destruct (Prim2SF x) eqn:Ex; try done; try by eexists.
  by rewrite <- (SF2Prim_Prim2SF x), Ex in E.
Qed.

Lemma mapM_is_Some {A B} (f : A -> option B) (p : A -> bool) (l : list A) :
  (forall a, p a = true -> is_Some (f a)) ->
  forallb p l = true -> is_Some (mapM f l).
Proof.
  intros Hf. induction l as [|a l IH]; simpl; [by eexists|].
  intros H. apply andb_true_iff in H as [Ha Hl].
  destruct (Hf a Ha) as [b ->]. destruct (IH Hl) as [k ->]. by eexists.
Qed.

Lemma forallb_map_comp {A B} (p : B -> bool) (f : A -> B) (l : list A) :
  forallb p (map f l) = forallb (fun a => p (f a)) l.
Proof. induction l as [|a l IH]; simpl; [done|]. by rewrite IH. Qed.

Lemma mul_numbers x y : exists z, mul (Num x) (Num y) = Some (Num z).
Proof. by eexists. Qed.

Lemma div_numbers x y : exists z, div (Num x) (Num y) = Some (Num z).
Proof. by eexists. Qed.

Lemma add_numbers x y : exists z, add (Num x) (Num y) = Some (Num z).
Proof. by eexists. Qed.

Lemma has_str_text_or_missing (s : list cell) :
  forallb (fun c => is_text c || isna c) s = true -> has_str s = true.
Proof.
  unfold has_str. induction s as [|[t|x] s IH]; simpl; [done|done|].
  intros H. apply andb_true_iff in H as [H1 H2]. rewrite H1. by apply IH.
Qed.

(** On well-formed tables no step raises. *)
Lemma well_formed_run cv cat eff rates :
  well_formed cv cat eff rates = true ->
  is_Some (dash_analysis.run cv cat eff rates).
Proof.
  unfold well_formed, has_column, column_all. cbv zeta. intros H.
  apply andb_true_iff in H as [Hd H].
  apply andb_true_iff in Hd as [Hd Drates]. apply andb_true_iff in Hd as [Dcat Deff].
  repeat (apply andb_true_iff in H as [H ?]).
  destruct (index_of "dashboard name" _) as [i|] eqn:Ei; [|done].
  destruct (index_of "estimated conversion level" _) as [j|] eqn:Ej; [|done].
  destruct (index_of "status" _) as [k|] eqn:Ek; [|done].
  destruct (column "pages" _) as [pv|] eqn:Ep; [|done].
  destruct (column "conversion_level" _) as [lv|] eqn:Elv; [|done].
  destruct (column "conversion level" _) as [tiers|] eqn:Etiers; [|done].
  destruct (column "conversion rate hrs" _) as [hrs|] eqn:Ehrs; [|done].
  destruct (column "junior analyst efforts" _) as [jrs|] eqn:Ejrs; [|done].
  destruct (column "manager efforts" _) as [mgrs|] eqn:Emgrs; [|done].
  destruct (index_of "position" _) as [q|] eqn:Eq; [|done].
  destruct (column "hourly rates" _) as [rv|] eqn:Erv; [|done].
  assert (forallb (fun c => negb (infinite (to_numeric cv c))) pv = true) as Npv by done.
  assert (forallb (fun c => is_text c || isna c) lv = true) as Tlv.
  { match goal with T : text_column lv = true |- _ =>
      by apply andb_true_iff in T as [T _] end. }
  assert (has_str tiers = true /\ unique_labels (map strip_lower tiers) = true) as [Ttiers Utiers].
  { match goal with T : text_column tiers && _ = true |- _ =>
      apply andb_true_iff in T as [T U]; apply andb_true_iff in T as [T _] end.
    split; [by apply has_str_text_or_missing | done]. }
  assert (forallb is_number hrs = true) as Nhrs by done.
  assert (forallb is_number jrs = true) as Njrs by done.
  assert (forallb is_number mgrs = true) as Nmgrs by done.
  assert (forallb is_number rv = true) as Nrv by done.
  assert (str_accessor lv = Some lv /\ str_accessor tiers = Some tiers) as [Olv Otiers].
  { split; apply str_accessor_Some; (split; [done|]).
    - match goal with T : text_column lv = true |- _ =>
        by apply andb_true_iff in T as [_ T] end.
    - match goal with T : text_column tiers && _ = true |- _ =>
        apply andb_true_iff in T as [T _]; by apply andb_true_iff in T as [_ T] end. }
  unfold dash_analysis.run. cbv zeta. fold renaming.
  rewrite Elv. cbn [mbind option_bind]. rewrite Olv. cbn [mbind option_bind].
  (* the row filter *)
  unfold dropna. cbn [mapM]. rewrite Ei, Ej. cbn [mbind option_bind mret option_ret].
  set (df := {| columns := columns (normalize_columns cat); rows := List.filter _ _ |}).
  (* the catalog columns *)
  assert (forall c n, index_of c (columns (rename renaming (normalize_columns cat))) = Some n ->
            column c (rename renaming df) = Some (map (cell_at n) (rows df))) as Hcol.
  { intros c n E. apply column_Some. exists n.
    change (columns (rename renaming df)) with (columns (rename renaming (normalize_columns cat))).
    split; [done|]. split; [by apply distinct_not_repeated | done]. }
  apply column_Some in Elv as (j' & Ej' & _ & ->).
  apply column_Some in Ep as (p & Ep' & _ & ->).
  rewrite (Hcol _ _ Ej'), (Hcol _ _ Ek), (Hcol _ _ Ep').
  cbn [mbind option_bind mret option_ret fmap option_fmap option_map].
  set (levels := map strip_lower (map (cell_at j') (rows df))).
  assert (str_strip_lower (map (cell_at j') (rows df)) = Some levels) as ->.
  { unfold str_strip_lower. rewrite has_str_text_or_missing; [done|].
    by apply forallb_map_filter. }
  cbn [mbind option_bind mret option_ret fmap option_fmap option_map].
  (* the effort table *)
  rewrite Etiers, Ehrs, Ejrs, Emgrs.
  cbn [mbind option_bind mret option_ret fmap option_fmap option_map].
  rewrite Otiers. cbn [mbind option_bind].
  assert (str_strip_lower tiers = Some (map strip_lower tiers)) as ->
    by (unfold str_strip_lower; by rewrite Ttiers).
  cbn [mbind option_bind mret option_ret fmap option_fmap option_map].
  destruct (map_series_numbers _ _ levels Utiers Nhrs) as (bh & Ebh & Nbh).
  destruct (map_series_numbers _ _ levels Utiers Njrs) as (jp & Ejp & Njp).
  destruct (map_series_numbers _ _ levels Utiers Nmgrs) as (mp & Emp & Nmp).
  pose proof (map_series_length _ _ _ _ Ebh) as Lbh.
  pose proof (map_series_length _ _ _ _ Ejp) as Ljp.
  pose proof (map_series_length _ _ _ _ Emp) as Lmp.
  assert (length levels = length (rows df)) as Llev by (unfold levels; by rewrite !length_map).
  rewrite Ebh, Ejp, Emp. cbn [mbind option_bind].
  (* the page factors *)
  destruct (mapM_is_Some dash_analysis.page_multiplier (fun x => negb (infinite x))
              (map (to_numeric cv) (map (cell_at p) (rows df)))) as [pf Epf].
  { intros x Hx. apply page_multiplier_finite. by destruct (infinite x). }
  { rewrite forallb_map_comp. by apply forallb_map_filter. }
  pose proof (length_mapM _ _ _ Epf) as Lpf. rewrite !length_map in Lpf.
  rewrite Epf. cbn [mbind option_bind].
  (* the hours *)
  destruct (zip_op_numbers mul bh (map Num pf) mul_numbers) as (t & Et & Nt & Lt);
    [rewrite length_map; lia | done | apply forallb_map_Num |].
  rewrite Et. cbn [mbind option_bind].
  match goal with |- context [zip_op mul t (map Num ?sf)] =>
    destruct (zip_op_numbers mul t (map Num sf) mul_numbers) as (ah & Eah & Nah & Lah);
      [rewrite !length_map; lia | done | apply forallb_map_Num |]
  end.
  rewrite Eah. cbn [mbind option_bind].
  destruct (scalar_op_numbers div jp (Num 100) div_numbers) as (sj & Esj & Nsj & Lsj); [done..|].
  destruct (zip_op_numbers mul ah sj mul_numbers) as (jh & Ejh & Njh & Ljh); [lia | done..|].
  rewrite Esj. cbn [mbind option_bind]. rewrite Ejh. cbn [mbind option_bind].
  destruct (scalar_op_numbers div mp (Num 100) div_numbers) as (sg & Esg & Nsg & Lsg); [done..|].
  destruct (zip_op_numbers mul ah sg mul_numbers) as (mh & Emh & Nmh & Lmh); [lia | done..|].
  rewrite Esg. cbn [mbind option_bind]. rewrite Emh. cbn [mbind option_bind].
  (* the rates *)
  assert (column "position" (normalize_columns rates)
          = Some (map (cell_at q) (rows (normalize_columns rates)))) as Epos
    by (apply column_Some; exists q; split; [done|]; split;
        [by apply distinct_not_repeated | done]).
  unfold indexed_to_dict.
  rewrite Epos. cbn [mbind option_bind]. rewrite (distinct_not_repeated _ _ Drates), Erv.
  cbn [mbind option_bind fmap option_fmap option_map].
  set (d := to_dict _ rv).
  assert (forallb is_number (map snd d) = true) as Nd by by apply snd_zip_numbers.
  destruct (scalar_op_numbers mul jh (get "Junior Analyst" (Num 0) d) mul_numbers)
    as (jc & Ejc & Njc & Ljc); [by apply get_number | done |].
  destruct (scalar_op_numbers mul mh (get "Manager" (Num 0) d) mul_numbers)
    as (mc & Emc & Nmc & Lmc); [by apply get_number | done |].
  rewrite Ejc. cbn [mbind option_bind]. rewrite Emc. cbn [mbind option_bind].
  destruct (zip_op_numbers add jc mc add_numbers) as (tc & Etc & Ntc & Ltc); [lia | done..|].
  rewrite Etc. cbn [mbind option_bind].
  (* the totals *)
  destruct (sum_numbers ah Nah) as [th ->].
  destruct (sum_numbers jc Njc) as [tj ->].
  destruct (sum_numbers mc Nmc) as [tm ->].
  by eexists.
Qed.


End progress.

(** ** The status factor *)

Lemma status_length {pm sm cv cat eff rates out} (i : nat) (st : string) :
  Steps pm sm cv cat eff rates out -> status out !! i = Some st -> (i < nrows out)%nat.
Proof.
  intros steps H. apply lookup_lt_Some in H.
  destruct (steps_lengths steps) as (_ & L & _). lia.
Qed.

(** C3.  The status factor is 1.0 for "active", 1.1 for "in progress" and
    1.3 for "broken", and NaN for every other normalized status.  A run
    normalizes the status cell of every row (as text, stripped and
    lower-cased) and gives the row the factor of that status.  In a row
    whose status is none of the three, status_factor, adjusted_hours,
    jr_hours, mgr_hours, jr_cost, mgr_cost and total_cost are all NaN; and
    the cost computation does not raise for it: on well-formed tables,
    whatever their status cells, it runs through. *)
Theorem unknown_status_is_nan :
  status_factor_of "active" = 1.0%float /\
  status_factor_of "in progress" = 1.1%float /\
  status_factor_of "broken" = 1.3%float /\
  (forall s, s <> "active" -> s <> "in progress" -> s <> "broken" -> status_factor_of s = nan) /\
  (forall cv cat eff rates out (cells : list cell) (i : nat) (c : cell),
     dash_analysis.run cv cat eff rates = Some out ->
     column "status" (dashboard_df out) = Some cells ->
     cells !! i = Some c ->
     let st := Py.lower (Py.strip (astype_str cv c)) in
     status out !! i = Some st /\
     status_factor out !! i = Some (status_factor_of st)) /\
  (forall cv cat eff rates out (i : nat) (st : string),
     dash_analysis.run cv cat eff rates = Some out ->
     status out !! i = Some st ->
     status_factor out !! i = Some (status_factor_of st)) /\
  (forall cv cat eff rates out (i : nat) (st : string),
     dash_analysis.run cv cat eff rates = Some out ->
     status out !! i = Some st ->
     st <> "active" -> st <> "in progress" -> st <> "broken" ->
     status_factor out !! i = Some nan /\
     row_results out i nan nan nan nan nan nan) /\
  (forall cv cat eff rates,
     well_formed cv cat eff rates = true ->
     exists out, dash_analysis.run cv cat eff rates = Some out).
Proof.
  assert (forall s, s <> "active" -> s <> "in progress" -> s <> "broken" -> status_factor_of s = nan)
    as Hother.
  { intros s H1 H2 H3. unfold status_factor_of, dash_analysis.status_multiplier. simpl.
    apply String.eqb_neq in H1, H2, H3. by rewrite H1, H2, H3. }
  assert (forall cv cat eff rates out (i : nat) (st : string),
            dash_analysis.run cv cat eff rates = Some out ->
            status out !! i = Some st ->
            status_factor out !! i = Some (status_factor_of st)) as Hfactor.
  { intros cv cat eff rates out i st Hrun Hst.
    apply dash_analysis_steps in Hrun as [steps _].
    rewrite (step_status_factor _ _ _ _ _ _ _ steps), lookup_map, Hst. done. }
  split; [done|]. split; [done|]. split; [done|]. split; [exact Hother|].
  split; [|split; [exact Hfactor|split]].
  - intros cv cat eff rates out cells i c Hrun Hcells Hc st.
    assert (status out !! i = Some st) as Hst.
    { apply dash_analysis_steps in Hrun as [steps _].
      pose proof (step_status _ _ _ _ _ _ _ steps) as Hs. rewrite Hcells in Hs.
      cbn in Hs. injection Hs as <-. by rewrite lookup_map, Hc. }
    split; [done|]. by apply (Hfactor cv cat eff rates).
  - intros cv cat eff rates out i st Hrun Hst H1 H2 H3.
    apply dash_analysis_steps in Hrun as [steps _].
    destruct (steps_row steps i (status_length i st steps Hst))
      as (st' & bh & jp & mp & pf & sf & jr & mr & Hst' & Hsf & _ & _ & Hin & Hres).
    rewrite Hst in Hst'. injection Hst' as <-.
    fold (status_factor_of st) in Hsf. rewrite (Hother st H1 H2 H3) in Hsf. subst sf.
    split; [by destruct Hin as (_ & _ & _ & _ & Hsf)|].
    cbv zeta in Hres. by rewrite !mul_nan_r, !mul_nan_l, add_nan_l in Hres.
  - intros cv cat eff rates Hwf. by apply well_formed_run.
Qed.

(** A dashboard with a status outside the table, and a broken one. *)
Lemma unknown_status_is_nan_witness :
  exists out out',
    dash_analysis.run Example.cv Example.sales_unknown Example.effort Example.rates = Some out /\
    status out !! 0%nat = Some "unknown" /\
    status_factor out !! 0%nat = Some nan /\
    row_results out 0 nan nan nan nan nan nan /\
    dash_analysis.run Example.cv Example.two_dashboards Example.effort Example.rates = Some out' /\
    status out' !! 0%nat = Some "broken" /\
    status_factor out' !! 0%nat = Some 1.3%float.
Proof.
  destruct unknown_status_is_nan as (_ & _ & _ & _ & Hcell & _ & Hrow & Hrun).
  destruct (Hrun Example.cv Example.sales_unknown Example.effort Example.rates) as [out Hout];
    [by vm_compute|].
  destruct (Hrun Example.cv Example.two_dashboards Example.effort Example.rates) as [out' Hout'];
    [by vm_compute|].
  exists out, out'.
  assert (status out !! 0%nat = Some "unknown") as Hst.
  { vm_compute in Hout. by injection Hout as <-. }
  destruct (Hrow Example.cv Example.sales_unknown Example.effort Example.rates out 0%nat
              "unknown" Hout Hst) as [Hfactor Hresults]; [done..|].
  split; [done|]. split; [done|]. split; [done|]. split; [done|]. split; [done|].
  apply (Hcell Example.cv Example.two_dashboards Example.effort Example.rates out'
           [Str "broken"; Str "active"] 0%nat (Str "broken")); [done| |done].
  vm_compute in Hout'. by injection Hout' as <-.
Defined.

(** ** The rate table *)

Section rate_table.

Lemma get_missing key dflt (d : list (cell * cell)) :
  existsb (label_eqb (Str key)) (map fst d) = false -> get key dflt d = dflt.
Proof.
  unfold get. revert dflt. induction d as [|[k v] d IH]; intros dflt; simpl; [done|].
  intros H. apply orb_false_iff in H as [H1 H2]. rewrite H1. by apply IH.
Qed.

Lemma get_last key dflt (d : list (cell * cell)) v :
  get key dflt (d ++ [(Str key, v)]) = v.
Proof.
  unfold get. rewrite fold_left_app. simpl. by rewrite String.eqb_refl.
Qed.

Lemma existsb_fst_zip (p : cell -> bool) (s t : list cell) :
  existsb p s = false -> existsb p (map fst (zip s t)) = false.
Proof.
  revert t. induction s as [|a s IH]; intros [|b t]; simpl; try done.
  intros H. apply orb_false_iff in H as [H1 H2]. rewrite H1. by apply IH.
Qed.

Lemma steps_rate_missing {pm sm cv cat eff rates out} :
  Steps pm sm cv cat eff rates out ->
  (has_position "Junior Analyst" rates = false -> jr_rate out = Num 0) /\
  (has_position "Manager" rates = false -> mgr_rate out = Num 0).
Proof.
  intros steps. destruct (step_rates _ _ _ _ _ _ _ steps) as (d & Hd & Hj & Hm).
  apply indexed_to_dict_Some in Hd as (position & Hp & [(rate & _ & ->) | [_ ->]]).
  - unfold has_position. rewrite Hp, Hj, Hm.
    split; intros H; apply get_missing; by apply existsb_fst_zip.
  - by rewrite Hj, Hm.
Qed.

(** Zeros in binary64. *)
Lemma mul_zero_r (x : float) :
  Prim2SF (x * 0)%float =
  match Prim2SF x with
  | S754_zero s | S754_finite s _ _ => S754_zero s
  | S754_infinity _ | S754_nan => S754_nan
  end.
Proof.
  rewrite mul_spec. change (Prim2SF 0) with (S754_zero false).
  destruct (Prim2SF x) as [s|s| |s m e]; simpl; try done; by destruct s.
Qed.

Lemma zero_or_nan_of_Prim2SF (z : float) :
  match Prim2SF z with S754_zero _ | S754_nan => True | _ => False end ->
  zero_or_nan z = true.
Proof.
  unfold zero_or_nan, is_nan. rewrite !FloatAxioms.eqb_spec.
  change (Prim2SF 0) with (S754_zero false).
  by destruct (Prim2SF z).
Qed.

Lemma mul_zero_r_zero_or_nan (x : float) : zero_or_nan (x * 0) = true.
Proof.
  apply zero_or_nan_of_Prim2SF. rewrite mul_zero_r. by destruct (Prim2SF x).
Qed.

Lemma mul_zero_r_finite (x : float) :
  is_nan x = false -> infinite x = false -> (x * 0 =? 0)%float = true.
Proof.
  unfold infinite. intros Hn Hi. rewrite FloatAxioms.eqb_spec, mul_zero_r.
  change (Prim2SF 0) with (S754_zero false).
  destruct (Prim2SF x) eqn:E; try done.
  by rewrite <- (SF2Prim_Prim2SF x), E in Hn.
Qed.

Lemma add_zero_r_eqb (y z : float) :
  (z =? 0)%float = true -> is_nan y = false -> (z + y =? y)%float = true.
Proof.
  unfold is_nan. rewrite !FloatAxioms.eqb_spec, add_spec.
  change (Prim2SF 0) with (S754_zero false).
  destruct (Prim2SF z) as [s|s| |s m e]; try done; try (by destruct s).
  intros _. destruct (Prim2SF y) as [s'|s'| |s' m' e']; try done.
  - by destruct s, s'.
  - simpl. by destruct (SFeqb _ _).
  - simpl. by destruct (SFeqb _ _).
Qed.

Lemma add_zero_l_eqb (y z : float) :
  (z =? 0)%float = true -> is_nan y = false -> (y + z =? y)%float = true.
Proof.
  unfold is_nan. rewrite !FloatAxioms.eqb_spec, add_spec.
  change (Prim2SF 0) with (S754_zero false).
  destruct (Prim2SF z) as [s|s| |s m e]; try done; try (by destruct s).
  intros _. destruct (Prim2SF y) as [s'|s'| |s' m' e']; try done.
  - by destruct s, s'.
  - simpl. by destruct (SFeqb _ _).
  - simpl. by destruct (SFeqb _ _).
Qed.

(** A column priced at rate zero. *)
Lemma zero_rate_column (hours cost : list cell) :
  scalar_op mul hours (Num 0) = Some cost ->
  sum cost = Some 0%float /\
  forall i c, cost !! i = Some c ->
    exists h, hours !! i = Some (Num h) /\ c = Num (h * 0)%float.
Proof.
  intros H.
  assert (forall i c, cost !! i = Some c ->
            exists h, hours !! i = Some (Num h) /\ c = Num (h * 0)%float) as Hrow.
  { intros i c Hc. destruct (scalar_op_lookup _ _ _ _ _ _ H Hc) as (a & Ha & Hm).
    apply mul_Some in Hm as (h & ? & -> & [= <-] & ->). by exists h. }
  split; [|done].
  apply sum_zeros, Forall_lookup. intros i c Hc.
  destruct (Hrow i c Hc) as (h & _ & ->).
  eexists. split; [done|]. apply mul_zero_r_zero_or_nan.
Qed.

End rate_table.

(** C8.  When no row of the rate table has the position "Junior Analyst",
    the junior rate is 0: every row's jr_cost is [jr_hours * 0], a zero
    (NaN only where jr_hours itself is NaN or infinite), total_cost is the
    manager's cost, and total_jr_cost is 0.  Likewise for "Manager".  The
    cost computation does not raise for the missing role: well-formed
    tables need not name either role. *)
Theorem missing_rate_defaults_to_zero :
  (forall cv cat eff rates out,
     dash_analysis.run cv cat eff rates = Some out ->
     has_position "Junior Analyst" rates = false ->
     jr_rate out = Num 0 /\ total_jr_cost out = 0%float /\
     forall i : nat, (i < nrows out)%nat ->
       exists jh mc : float,
         jr_hours out !! i = Some (Num jh) /\
         jr_cost out !! i = Some (Num (jh * 0)) /\
         mgr_cost out !! i = Some (Num mc) /\
         total_cost out !! i = Some (Num (jh * 0 + mc)) /\
         zero_or_nan (jh * 0) = true /\
         (is_nan jh = false -> infinite jh = false ->
          (jh * 0 =? 0)%float = true /\
          (is_nan mc = false -> (jh * 0 + mc =? mc)%float = true))) /\
  (forall cv cat eff rates out,
     dash_analysis.run cv cat eff rates = Some out ->
     has_position "Manager" rates = false ->
     mgr_rate out = Num 0 /\ total_mgr_cost out = 0%float /\
     forall i : nat, (i < nrows out)%nat ->
       exists mh jc : float,
         mgr_hours out !! i = Some (Num mh) /\
         mgr_cost out !! i = Some (Num (mh * 0)) /\
         jr_cost out !! i = Some (Num jc) /\
         total_cost out !! i = Some (Num (jc + mh * 0)) /\
         zero_or_nan (mh * 0) = true /\
         (is_nan mh = false -> infinite mh = false ->
          (mh * 0 =? 0)%float = true /\
          (is_nan jc = false -> (jc + mh * 0 =? jc)%float = true))) /\
  (forall cv cat eff rates,
     well_formed cv cat eff rates = true ->
     has_position "Junior Analyst" rates = false \/ has_position "Manager" rates = false ->
     exists out, dash_analysis.run cv cat eff rates = Some out).
Proof.
  split; [|split].
  - intros cv cat eff rates out Hrun Hmiss.
    apply dash_analysis_steps in Hrun as [steps _].
    pose proof (proj1 (steps_rate_missing steps) Hmiss) as Hrate.
    pose proof (step_jr_cost _ _ _ _ _ _ _ steps) as Hcost. rewrite Hrate in Hcost.
    destruct (zero_rate_column _ _ Hcost) as [Hsum _].
    rewrite (step_total_jr_cost _ _ _ _ _ _ _ steps) in Hsum.
    split; [done|]. split; [congruence|].
    intros i Hi.
    destruct (steps_row steps i Hi)
      as (st & bh & jp & mp & pf & sf & jr & mr & _ & _ & Hjr & _ & _ & Hres).
    rewrite Hrate in Hjr. injection Hjr as <-.
    cbv zeta in Hres. destruct Hres as (_ & Hjh & _ & Hjc & Hmc & Htc).
    eexists _, _. repeat (split; [eassumption|]).
    split; [apply mul_zero_r_zero_or_nan|].
    intros Hn Hf. pose proof (mul_zero_r_finite _ Hn Hf) as Hz.
    split; [done|]. intros Hm. by apply add_zero_r_eqb.
  - intros cv cat eff rates out Hrun Hmiss.
    apply dash_analysis_steps in Hrun as [steps _].
    pose proof (proj2 (steps_rate_missing steps) Hmiss) as Hrate.
    pose proof (step_mgr_cost _ _ _ _ _ _ _ steps) as Hcost. rewrite Hrate in Hcost.
    destruct (zero_rate_column _ _ Hcost) as [Hsum _].
    rewrite (step_total_mgr_cost _ _ _ _ _ _ _ steps) in Hsum.
    split; [done|]. split; [congruence|].
    intros i Hi.
    destruct (steps_row steps i Hi)
      as (st & bh & jp & mp & pf & sf & jr & mr & _ & _ & _ & Hmr & _ & Hres).
    rewrite Hrate in Hmr. injection Hmr as <-.
    cbv zeta in Hres. destruct Hres as (_ & _ & Hmh & Hjc & Hmc & Htc).
    eexists _, _. repeat (split; [eassumption|]).
    split; [apply mul_zero_r_zero_or_nan|].
    intros Hn Hf. pose proof (mul_zero_r_finite _ Hn Hf) as Hz.
    split; [done|]. intros Hm. by apply add_zero_l_eqb.
  - intros cv cat eff rates Hwf _. by apply well_formed_run.
Qed.

(** The scenario without the junior analyst in the rate table: the one
    dashboard costs the manager's share. *)
Lemma missing_rate_defaults_to_zero_witness :
  exists (out : Output) (jh mc : float),
    dash_analysis.run Example.cv Example.sales Example.effort Example.rates_manager_only = Some out /\
    jr_rate out = Num 0 /\ total_jr_cost out = 0%float /\
    jr_hours out !! 0%nat = Some (Num jh) /\
    jr_cost out !! 0%nat = Some (Num (jh * 0)) /\
    mgr_cost out !! 0%nat = Some (Num mc) /\
    total_cost out !! 0%nat = Some (Num (jh * 0 + mc)) /\
    (jh * 0 =? 0)%float = true /\
    (jh * 0 + mc =? mc)%float = true.
Proof.
  destruct missing_rate_defaults_to_zero as (Hjr & _ & Hrun).
  destruct (Hrun Example.cv Example.sales Example.effort Example.rates_manager_only)
    as [out Hout]; [by vm_compute | left; by vm_compute |].
  destruct (Hjr Example.cv Example.sales Example.effort Example.rates_manager_only out Hout)
    as (H1 & H2 & Hrows); [by vm_compute|].
  pose proof Hout as Eout. vm_compute in Eout. injection Eout as Eout.
  destruct (Hrows 0%nat) as (jh & mc & A & B & C & D & _ & F).
  { rewrite <- Eout. vm_compute. lia. }
  exists out, jh, mc. repeat (split; [done|]).
  rewrite <- Eout in A, C. vm_compute in A, C. injection A as <-. injection C as <-.
  destruct F as [F1 F2]; [by vm_compute..|]. split; [done|]. apply F2. by vm_compute.
Defined.

(** C10.  The two rates are looked up by the exact texts "Junior Analyst"
    and "Manager": a position cell that differs from the text in any
    character, be it only case or a blank, is not a match, and when no cell
    matches the rate is 0.  Only the headers of the tables are normalized,
    never their cells; the conversion level and the status are matched after
    normalization.  So a rate table that spells the positions
    "junior analyst" and " Manager" gives both rates 0, in both scripts,
    while "  MEDIUM " and " Active " in the catalog are recognized. *)
Theorem rate_lookup_is_exact :
  (forall cv cat eff rates out,
     dash_analysis.run cv cat eff rates = Some out \/
     dash_cat_analysis.run cv cat eff rates = Some out ->
     (has_position "Junior Analyst" rates = false -> jr_rate out = Num 0) /\
     (has_position "Manager" rates = false -> mgr_rate out = Num 0)) /\
  (forall key s v, s <> key -> get key (Num 0) [(Str s, v)] = Num 0) /\
  (forall key v, get key (Num 0) [(Str key, v)] = v) /\
  (forall df, rows (normalize_columns df) = rows df) /\
  Py.lower (Py.strip "junior analyst") = Py.lower (Py.strip "Junior Analyst") /\
  Py.lower (Py.strip " Manager") = Py.lower (Py.strip "Manager") /\
  (exists out,
     dash_analysis.run Example.cv Example.sales_shouting Example.effort Example.rates_lowercase
     = Some out /\
     jr_rate out = Num 0 /\ mgr_rate out = Num 0 /\
     base_hours out = [Num 10] /\ status_factor out = [1.0%float]) /\
  (exists out,
     dash_cat_analysis.run Example.cv Example.sales_shouting Example.effort Example.rates_lowercase
     = Some out /\
     jr_rate out = Num 0 /\ mgr_rate out = Num 0 /\
     base_hours out = [Num 10] /\ status_factor out = [1.0%float]).
Proof.
  split; [|split; [|split; [|split; [|split; [|split; [|split]]]]]].
  - intros cv cat eff rates out [Hrun|Hrun].
    + apply dash_analysis_steps in Hrun as [steps _]. apply (steps_rate_missing steps).
    + apply dash_cat_analysis_steps in Hrun as [steps _]. apply (steps_rate_missing steps).
  - intros key s v Hne. apply get_missing. simpl.
    apply String.eqb_neq in Hne. by rewrite String.eqb_sym, Hne.
  - intros key v. apply (get_last key (Num 0) []).
  - done.
  - by vm_compute.
  - by vm_compute.
  - eexists. split; [by vm_compute|]. by vm_compute.
  - eexists. split; [by vm_compute|]. by vm_compute.
Qed.

Lemma rate_lookup_is_exact_witness :
  exists out,
    dash_analysis.run Example.cv Example.sales Example.effort Example.rates_lowercase = Some out /\
    jr_rate out = Num 0 /\ mgr_rate out = Num 0.
Proof.
  destruct (dash_analysis.run Example.cv Example.sales Example.effort Example.rates_lowercase)
    as [out|] eqn:Hrun; [|by vm_compute in Hrun].
  exists out. split; [done|].
  destruct (proj1 rate_lookup_is_exact Example.cv Example.sales Example.effort
              Example.rates_lowercase out (or_introl Hrun)) as [Hj Hm].
  split; [apply Hj | apply Hm]; by vm_compute.
Defined.

(** ** The row filter *)




(** ** The scenario of the specification *)

(** C5.  For the dashboard "Sales" (medium, 3 pages, active), medium being
    10 hours split 70/30, and rates 50 and 100, both scripts give
    page_factor 1.10 and status_factor 1.0 exactly, and adjusted_hours 11.0,
    jr_hours 7.7, mgr_hours 3.3, jr_cost 385.0, mgr_cost 330.0 and
    total_cost 715.0 within 1e-9. *)
Theorem sales_scenario (cv : Conversions) :
  exists out1 out2 (ah jh mh jc mc tc : float),
    dash_analysis.run cv Example.sales Example.effort Example.rates = Some out1 /\
    dash_cat_analysis.run cv Example.sales Example.effort Example.rates = Some out2 /\
    agree out1 out2 /\
    page_factor out1 = [1.10%float] /\
    status_factor out1 = [1.0%float] /\
    adjusted_hours out1 = [Num ah] /\ within tolerance ah 11 /\
    jr_hours out1 = [Num jh] /\ within tolerance jh (77 # 10) /\
    mgr_hours out1 = [Num mh] /\ within tolerance mh (33 # 10) /\
    jr_cost out1 = [Num jc] /\ within tolerance jc 385 /\
    mgr_cost out1 = [Num mc] /\ within tolerance mc 330 /\
    total_cost out1 = [Num tc] /\ within tolerance tc 715.
Proof.
  do 8 eexists.
  split; [by vm_compute|]. split; [by vm_compute|].
  split; [by repeat split|].
  repeat (split; [by vm_compute|]). by vm_compute.
Qed.

(** ** The totals *)





(** * Further properties of the two scripts *)

(** ** Runs and steps *)

Section either.

Context {cv : Conversions} {cat eff rates : DataFrame}.

Lemma either_run_steps (out : Output) :
  either_run cv cat eff rates out ->
  Steps dash_analysis.page_multiplier dash_analysis.status_multiplier cv cat eff rates out.
Proof.
  intros [H|H].
  - by apply dash_analysis_steps in H as [steps _].
  - by apply dash_cat_analysis_steps in H as [steps _].
Qed.

Lemma no_steps_both_raise :
  (forall out,
     ~ Steps dash_analysis.page_multiplier dash_analysis.status_multiplier cv cat eff rates out) ->
  both_raise cv cat eff rates.
Proof.
  intros Hno. split.
  - destruct (dash_analysis.run cv cat eff rates) as [out|] eqn:H; [|done].
    destruct (Hno out). apply either_run_steps. by left.
  - destruct (dash_cat_analysis.run cv cat eff rates) as [out|] eqn:H; [|done].
    destruct (Hno out). apply either_run_steps. by right.
Qed.

End either.

(** ** Tables on which the scripts finish, headers without which they raise *)

Lemma dash_cat_analysis_follows cv cat eff rates out :
  dash_analysis.run cv cat eff rates = Some out ->
  exists out', dash_cat_analysis.run cv cat eff rates = Some out' /\ agree out out'.
Proof.
  intros H. apply dash_analysis_steps in H as [steps _].
  destruct (scalar_op_number _ _ _ _ (step_jr_cost _ _ _ _ _ _ _ steps)) as [jr Hjr].
  exists (with_contractor_total_cost (total_hours out * jr) out).
  split; [|apply agree_with_contractor_total_cost].
  apply (dash_cat_analysis_run_of_steps cv cat eff rates _ jr); try done.
  by apply steps_with_contractor_total_cost.
Qed.

(** X1.  On well-formed tables (headers present and distinct, levels and
    tier names text, tier names distinct, effort figures and rates numbers,
    no infinite page count) the cost computation of neither script raises. *)
Theorem well_formed_tables_finish (cv : Conversions) (cat eff rates : DataFrame) :
  well_formed cv cat eff rates = true -> both_finish cv cat eff rates.
Proof.
  intros Hwf. destruct (well_formed_run cv cat eff rates Hwf) as [out1 H1].
  destruct (dash_cat_analysis_follows _ _ _ _ _ H1) as (out2 & H2 & _).
  by exists out1, out2.
Qed.

Lemma well_formed_tables_finish_witness :
  both_finish Example.cv Example.catalog_ascending Example.effort_tenths Example.rates_lowercase.
Proof.
  apply (well_formed_tables_finish Example.cv Example.catalog_ascending Example.effort_tenths
           Example.rates_lowercase).
  by vm_compute.
Defined.

Section headers.

Lemma column_has_column c df s : column c df = Some s -> has_column c df = true.
Proof.
  unfold column, has_column. by destruct (index_of c (columns df)).
Qed.

Lemma index_of_map_existsb (f : string -> string) (k : string) (cols : list string) :
  match index_of k (map f cols) with Some _ => true | None => false end
  = existsb (fun c => String.eqb k (f c)) cols.
Proof.
  induction cols as [|c cols IH]; [done|]. cbn [map index_of existsb].
  destruct (String.eqb k (f c)); [done|]. rewrite <- IH.
  by destruct (index_of k (map f cols)).
Qed.

Lemma has_column_existsb (k : string) (df : DataFrame) :
  has_column k df = existsb (String.eqb k) (columns df).
Proof.
  unfold has_column. rewrite <- (map_id (columns df)) at 1.
  apply (index_of_map_existsb (fun c => c)).
Qed.

Lemma has_column_renamed (k : string) (df : DataFrame) :
  has_column k (rename renaming df) = existsb (fun c => String.eqb k (renamed c)) (columns df).
Proof. apply index_of_map_existsb. Qed.

Ltac by_renaming c :=
  unfold renamed, renaming; cbn [dict_get];
  repeat match goal with
         | |- context [(c =? ?k)%string] => destruct (String.eqb_spec c k) as [->|?]
         end; cbn [default]; try reflexivity;
  repeat match goal with
         | |- context [(?k =? c)%string] => destruct (String.eqb_spec k c) as [<-|?]
         end; try reflexivity; try congruence.

Lemma status_is_not_renamed (c : string) :
  String.eqb "status" (renamed c) = String.eqb "status" c.
Proof. by_renaming c. Qed.

Lemma pages_after_renaming (c : string) :
  String.eqb "pages" (renamed c)
  = String.eqb "available data pages" c || String.eqb "pages" c.
Proof. by_renaming c. Qed.

Lemma has_status_renamed (df : DataFrame) :
  has_column "status" (rename renaming df) = has_column "status" df.
Proof.
  rewrite has_column_renamed, has_column_existsb.
  induction (columns df) as [|c cols IH]; [done|].
  cbn [existsb]. by rewrite status_is_not_renamed, IH.
Qed.

Lemma has_pages_renamed (df : DataFrame) :
  has_column "pages" (rename renaming df)
  = has_column "available data pages" df || has_column "pages" df.
Proof.
  rewrite has_column_renamed, !has_column_existsb.
  induction (columns df) as [|c cols IH]; [done|].
  cbn [existsb]. rewrite pages_after_renaming, IH.
  destruct (String.eqb "available data pages" c), (String.eqb "pages" c),
    (existsb (String.eqb "available data pages") cols); done.
Qed.

Lemma steps_required_headers {pm sm cv cat eff rates out} :
  Steps pm sm cv cat eff rates out -> required_headers cat eff rates = true.
Proof.
  intros []. unfold required_headers. cbv zeta.
  destruct step_filter0 as (df & Hdrop & Hdf).
  unfold dropna in Hdrop. cbn [mapM] in Hdrop.
  assert (has_column "dashboard name" (normalize_columns cat) = true /\
          has_column "estimated conversion level" (normalize_columns cat) = true /\
          columns df = columns (normalize_columns cat)) as (-> & -> & Hcols).
  { unfold has_column.
    destruct (index_of "dashboard name" _); [|done].
    destruct (index_of "estimated conversion level" _); [|done].
    cbn [mbind option_bind mret option_ret] in Hdrop. by injection Hdrop as <-. }
  assert (forall c, has_column c (dashboard_df out)
                    = has_column c (rename renaming (normalize_columns cat))) as Hsame.
  { intros c. rewrite Hdf. unfold has_column, rename. cbn [columns]. by rewrite Hcols. }
  apply fmap_Some in step_status0 as (st & Hst & _). apply column_has_column in Hst.
  rewrite Hsame, has_status_renamed in Hst. rewrite Hst.
  apply fmap_Some in step_pages0 as (pg & Hpg & _). apply column_has_column in Hpg.
  rewrite Hsame, has_pages_renamed in Hpg. rewrite Hpg.
  destruct step_effort0 as (tiers & ix & hrs & jr & mgr & H1 & _ & H2 & _ & H3 & _ & H4 & _).
  apply column_has_column in H1, H2, H3, H4. rewrite H1, H2, H3, H4.
  destruct step_rates0 as (d & Hd & _).
  apply indexed_to_dict_Some in Hd as (position & H5 & H6).
  apply column_has_column in H5. rewrite H5.
  destruct H6 as [(rate & H6 & _) | [H6 _]].
  - apply column_has_column in H6. by rewrite H6.
  - apply repeated_index_of in H6 as [i H6]. unfold has_column. by rewrite H6.
Qed.

End headers.

(** X2.  When one of the headers the scripts read is in none of the
    sheet's columns, whatever its case and the blanks around it, both
    scripts raise: nothing is computed from the columns that are there. *)
Theorem missing_header_raises (cv : Conversions) (cat eff rates : DataFrame) :
  required_headers cat eff rates = false -> both_raise cv cat eff rates.
Proof.
  intros Hmiss. apply no_steps_both_raise. intros out steps.
  apply steps_required_headers in steps. congruence.
Qed.

(** A catalog without its status column. *)
Lemma missing_header_raises_witness :
  both_raise Example.cv
    {| columns := ["Dashboard Name"; "Estimated Conversion Level"; "Available Data Pages"];
       rows := [ [Str "Sales"; Str "medium"; Num 3] ] |}
    Example.effort Example.rates.
Proof.
  apply (missing_header_raises Example.cv). by vm_compute.
Defined.

(** ** Normalized headers *)

Section python_strings.

Lemma lower_char_idempotent (c : ascii) : Py.lower_char (Py.lower_char c) = Py.lower_char c.
Proof. destruct c as [[] [] [] [] [] [] [] []]; vm_compute; reflexivity. Qed.

Lemma isspace_lower_char (c : ascii) : Py.isspace (Py.lower_char c) = Py.isspace c.
Proof. destruct c as [[] [] [] [] [] [] [] []]; vm_compute; reflexivity. Qed.

Lemma lower_idempotent (s : string) : Py.lower (Py.lower s) = Py.lower s.
Proof.
  induction s as [|c s IH]; [done|]. cbn [Py.lower].
  by rewrite lower_char_idempotent, IH.
Qed.

Lemma lstrip_lower (s : string) : Py.lstrip (Py.lower s) = Py.lower (Py.lstrip s).
Proof.
  induction s as [|c s IH]; [done|]. cbn [Py.lower Py.lstrip].
  rewrite isspace_lower_char. by destruct (Py.isspace c).
Qed.

Lemma rstrip_lower (s : string) : Py.rstrip (Py.lower s) = Py.lower (Py.rstrip s).
Proof.
  induction s as [|c s IH]; [done|]. cbn [Py.lower Py.rstrip].
  rewrite IH, isspace_lower_char.
  destruct (Py.rstrip s); cbn [Py.lower]; by destruct (Py.isspace c).
Qed.

Lemma strip_lower_commute (s : string) : Py.strip (Py.lower s) = Py.lower (Py.strip s).
Proof. unfold Py.strip. by rewrite lstrip_lower, rstrip_lower. Qed.

Lemma rstrip_cons (c : ascii) (s : string) :
  Py.rstrip (String c s)
  = match Py.rstrip s with
    | EmptyString => if Py.isspace c then EmptyString else String c EmptyString
    | t => String c t
    end.
Proof. done. Qed.

Lemma rstrip_idempotent (s : string) : Py.rstrip (Py.rstrip s) = Py.rstrip s.
Proof.
  induction s as [|c s IH]; [done|]. rewrite rstrip_cons.
  destruct (Py.rstrip s) as [|c' t] eqn:E.
  - destruct (Py.isspace c) eqn:Ec; [done|]. rewrite rstrip_cons. cbn [Py.rstrip]. by rewrite Ec.
  - rewrite rstrip_cons, IH. done.
Qed.

(** A text that does not start with a blank. *)
Definition flush_left (s : string) : Prop :=
  match s with
  | EmptyString => True
  | String c _ => Py.isspace c = false
  end.

Lemma lstrip_flush_left (s : string) : flush_left (Py.lstrip s).
Proof.
  induction s as [|c s IH]; [done|]. cbn [Py.lstrip].
  by destruct (Py.isspace c) eqn:E.
Qed.

Lemma rstrip_flush_left (s : string) : flush_left s -> flush_left (Py.rstrip s).
Proof.
  destruct s as [|c s]; [done|]. cbn [Py.rstrip flush_left]. intros Hc.
  rewrite Hc. by destruct (Py.rstrip s).
Qed.

Lemma lstrip_of_flush_left (s : string) : flush_left s -> Py.lstrip s = s.
Proof. destruct s as [|c s]; [done|]. cbn [Py.lstrip flush_left]. by intros ->. Qed.

Lemma strip_idempotent (s : string) : Py.strip (Py.strip s) = Py.strip s.
Proof.
  unfold Py.strip.
  rewrite (lstrip_of_flush_left (Py.rstrip (Py.lstrip s)))
    by apply rstrip_flush_left, lstrip_flush_left.
  apply rstrip_idempotent.
Qed.

Lemma normalize_idempotent (s : string) :
  Py.lower (Py.strip (Py.lower (Py.strip s))) = Py.lower (Py.strip s).
Proof. by rewrite strip_lower_commute, lower_idempotent, strip_idempotent. Qed.

End python_strings.

Lemma same_sheet_normalize_columns (df df' : DataFrame) :
  same_sheet df df' -> normalize_columns df = normalize_columns df'.
Proof. intros [Hr Hc]. unfold normalize_columns. by rewrite Hr, Hc. Qed.

(** X3.  The headers of the three sheets count only up to case and
    surrounding blanks: sheets with the same rows and the same normalized
    headers give the same run of either script, and normalizing the headers
    beforehand changes nothing, normalization being idempotent. *)
Theorem headers_count_normalized :
  (forall cv cat eff rates cat' eff' rates',
     same_sheet cat cat' -> same_sheet eff eff' -> same_sheet rates rates' ->
     dash_analysis.run cv cat eff rates = dash_analysis.run cv cat' eff' rates' /\
     dash_cat_analysis.run cv cat eff rates = dash_cat_analysis.run cv cat' eff' rates') /\
  (forall df, same_sheet df (normalize_columns df)) /\
  (forall s, Py.lower (Py.strip (Py.lower (Py.strip s))) = Py.lower (Py.strip s)).
Proof.
  split; [|split].
  - intros cv cat eff rates cat' eff' rates' H1 H2 H3.
    apply same_sheet_normalize_columns in H1, H2, H3.
    unfold dash_analysis.run, dash_cat_analysis.run. cbv zeta.
    by rewrite H1, H2, H3.
  - intros df. split; [done|]. cbn [normalize_columns columns].
    induction (columns df) as [|c cols IH]; [done|].
    cbn [map]. by rewrite normalize_idempotent, <- IH.
  - apply normalize_idempotent.
Qed.

Lemma headers_count_normalized_witness :
  dash_analysis.run Example.cv Example.sales Example.effort Example.rates
  = dash_analysis.run Example.cv
      {| columns := [" dashboard name"; "DATA VISUALIZATION TOOL"; "estimated conversion level ";
                     "AVAILABLE DATA PAGES"; "status"];
         rows := rows Example.sales |}
      Example.effort (normalize_columns Example.rates).
Proof.
  refine (proj1 (proj1 headers_count_normalized Example.cv _ _ _ _ _ _ _ _ _)).
  - split; [reflexivity|]. vm_compute. reflexivity.
  - split; reflexivity.
  - apply (proj1 (proj2 headers_count_normalized)).
Defined.

(** ** The effort lookup *)

Section effort_lookup.

Lemma label_eqb_strip_lower (a b : cell) :
  label_eqb (strip_lower a) (strip_lower b) = true <-> strip_lower a = strip_lower b.
Proof.
  destruct a as [s|x], b as [t|y]; cbn [strip_lower label_eqb NaN]; try done.
  rewrite String.eqb_eq. split; congruence.
Qed.

Lemma find_label_missing (k : cell) (index values : list cell) :
  existsb (label_eqb k) index = false -> find_label k index values = NaN.
Proof.
  revert values. induction index as [|l index IH]; intros [|v values]; cbn [find_label existsb];
    try done.
  intros H. apply orb_false_iff in H as [-> H]. by apply IH.
Qed.

Lemma existsb_lookup (p : cell -> bool) (l : list cell) (i : nat) (x : cell) :
  l !! i = Some x -> p x = true -> existsb p l = true.
Proof.
  revert i. induction l as [|y l IH]; intros [|i]; cbn [existsb]; try done.
  - intros [= ->] ->. done.
  - intros Hx Hp. rewrite (IH i Hx Hp). by destruct (p y).
Qed.

Lemma unique_labels_lookup (index : list cell) (a b : nat) (x y : cell) :
  unique_labels index = true -> (a < b)%nat ->
  index !! a = Some x -> index !! b = Some y -> label_eqb x y = false.
Proof.
  revert a b. induction index as [|l index IH]; intros a b Hu Hab Ha Hb; [done|].
  cbn [unique_labels] in Hu. apply andb_true_iff in Hu as [Hl Hu].
  destruct a as [|a], b as [|b]; try lia.
  - injection Ha as ->. simpl in Hb.
    destruct (label_eqb x y) eqn:E; [|done].
    by rewrite (existsb_lookup _ _ _ _ Hb E) in Hl.
  - simpl in Ha, Hb. apply (IH a b); [done|lia|done|done].
Qed.

Lemma find_label_at (tiers values : list cell) (t : nat) (l v : cell) :
  unique_labels (map strip_lower tiers) = true ->
  tiers !! t = Some l -> values !! t = Some v ->
  find_label (strip_lower l) (map strip_lower tiers) values = v.
Proof.
  revert values t. induction tiers as [|l0 tiers IH]; intros [|v0 values] t Hu Hl Hv; try done.
  cbn [map find_label]. cbn [map unique_labels] in Hu.
  apply andb_true_iff in Hu as [H0 Hu].
  destruct t as [|t].
  - injection Hl as ->. injection Hv as ->.
    by rewrite (proj2 (label_eqb_strip_lower l l) eq_refl).
  - simpl in Hl, Hv.
    destruct (label_eqb (strip_lower l) (strip_lower l0)) eqn:E; [|by apply (IH values t)].
    apply label_eqb_strip_lower in E.
    assert ((map strip_lower tiers) !! t = Some (strip_lower l)) as Hl'
      by by rewrite lookup_map, Hl.
    rewrite (existsb_lookup _ _ _ _ Hl') in H0; [done|].
    rewrite E. by apply label_eqb_strip_lower.
Qed.

Context {pm : float -> option float} {sm : list (string * float)} {cv : Conversions}
  {cat eff rates : DataFrame} {out : Output}.
Hypothesis steps : Steps pm sm cv cat eff rates out.

(** The three looked-up columns, entry by entry. *)
Lemma steps_effort :
  exists tiers hrs jrs mgrs,
    column "conversion level" (normalize_columns eff) = Some tiers /\
    column "conversion rate hrs" (normalize_columns eff) = Some hrs /\
    column "junior analyst efforts" (normalize_columns eff) = Some jrs /\
    column "manager efforts" (normalize_columns eff) = Some mgrs /\
    unique_labels (map strip_lower tiers) = true /\
    base_hours out
    = map (fun k => find_label k (map strip_lower tiers) hrs) (conversion_level out) /\
    junior_pct out
    = map (fun k => find_label k (map strip_lower tiers) jrs) (conversion_level out) /\
    manager_pct out
    = map (fun k => find_label k (map strip_lower tiers) mgrs) (conversion_level out).
Proof.
  destruct (step_effort _ _ _ _ _ _ _ steps)
    as (tiers & ix & hrs & jrs & mgrs & H1 & Hix & H2 & E1 & H3 & E2 & H4 & E3).
  exists tiers, hrs, jrs, mgrs.
  unfold str_strip_lower in Hix. destruct (has_str tiers); [|done]. injection Hix as <-.
  unfold map_series in E1, E2, E3.
  destruct (unique_labels (map strip_lower tiers)); [|done].
  injection E1 as <-. injection E2 as <-. injection E3 as <-. done.
Qed.


End effort_lookup.

(** X4.  Two tiers of the effort table whose names are the same once
    stripped and lower-cased (or two tiers without a name) make both scripts
    raise, whether or not a dashboard is of that tier. *)
Theorem duplicate_tiers_raise (cv : Conversions) (cat eff rates : DataFrame)
    (tiers : list cell) (a b : nat) (la lb : cell) :
  column "conversion level" (normalize_columns eff) = Some tiers ->
  a <> b -> tiers !! a = Some la -> tiers !! b = Some lb ->
  strip_lower la = strip_lower lb ->
  both_raise cv cat eff rates.
Proof.
  intros Htiers Hab Ha Hb Hsame. apply no_steps_both_raise. intros out steps.
  destruct (steps_effort steps) as (tiers' & _ & _ & _ & Ht & _ & _ & _ & Hu & _).
  rewrite Htiers in Ht. injection Ht as <-.
  assert (map strip_lower tiers !! a = Some (strip_lower la)) as Ha' by by rewrite lookup_map, Ha.
  assert (map strip_lower tiers !! b = Some (strip_lower lb)) as Hb' by by rewrite lookup_map, Hb.
  destruct (Nat.lt_total a b) as [Hlt|[Heq|Hlt]]; [|done|].
  - pose proof (unique_labels_lookup _ _ _ _ _ Hu Hlt Ha' Hb') as E.
    by rewrite (proj2 (label_eqb_strip_lower la lb) Hsame) in E.
  - pose proof (unique_labels_lookup _ _ _ _ _ Hu Hlt Hb' Ha') as E.
    by rewrite (proj2 (label_eqb_strip_lower lb la) (eq_sym Hsame)) in E.
Qed.

Lemma duplicate_tiers_raise_witness :
  both_raise Example.cv Example.sales
    {| columns := Example.effort_columns;
       rows := [ [Str "low"; Num 4; Num 80; Num 20];
                 [Str "Medium"; Num 10; Num 70; Num 30];
                 [Str " medium"; Num 12; Num 70; Num 30] ] |}
    Example.rates.
Proof.
  apply (duplicate_tiers_raise Example.cv Example.sales _ Example.rates
           [Str "low"; Str "Medium"; Str " medium"] 1 2 (Str "Medium") (Str " medium"));
    try reflexivity.
  lia.
Defined.

(** X5.  A dashboard whose normalized conversion level is the name of no
    tier has NaN for base_hours, junior_pct and manager_pct, and with them
    NaN for adjusted_hours, jr_hours, mgr_hours, jr_cost, mgr_cost and
    total_cost; the run goes on. *)
Theorem unknown_level_is_nan (cv : Conversions) (cat eff rates : DataFrame) (out : Output)
    (tiers : list cell) (i : nat) (k : cell) :
  either_run cv cat eff rates out ->
  column "conversion level" (normalize_columns eff) = Some tiers ->
  conversion_level out !! i = Some k ->
  existsb (label_eqb k) (map strip_lower tiers) = false ->
  base_hours out !! i = Some NaN /\
  junior_pct out !! i = Some NaN /\
  manager_pct out !! i = Some NaN /\
  row_results out i nan nan nan nan nan nan.
Proof.
  intros Hrun Htiers Hk Hmiss. apply either_run_steps in Hrun as steps.
  destruct (steps_effort steps) as (tiers' & hrs & jrs & mgrs & Ht & _ & _ & _ & _ & Eb & Ej & Em).
  rewrite Htiers in Ht. injection Ht as <-.
  assert (base_hours out !! i = Some NaN) as Hb
    by by rewrite Eb, lookup_map, Hk; cbn; rewrite find_label_missing.
  assert (junior_pct out !! i = Some NaN) as Hj
    by by rewrite Ej, lookup_map, Hk; cbn; rewrite find_label_missing.
  assert (manager_pct out !! i = Some NaN) as Hm
    by by rewrite Em, lookup_map, Hk; cbn; rewrite find_label_missing.
  repeat (split; [done|]).
  assert (i < nrows out)%nat as Hi.
  { apply lookup_lt_Some in Hk. destruct (steps_lengths steps) as (L & _). lia. }
  destruct (steps_row steps i Hi)
    as (st & bh & jp & mp & pf & sf & jr & mr & _ & _ & _ & _ & Hin & Hres).
  destruct Hin as (Hbh & _). rewrite Hb in Hbh. injection Hbh as <-.
  cbv zeta in Hres. by rewrite !mul_nan_l, add_nan_l in Hres.
Qed.

(** A dashboard of level "extreme" against tiers low, medium and high. *)
Lemma unknown_level_is_nan_witness :
  exists out,
    dash_analysis.run Example.cv
      {| columns := Example.catalog_columns;
         rows := [ [Str "Sales"; Str "Tableau"; Str "extreme"; Num 3; Str "active"] ] |}
      Example.effort_tenths Example.rates = Some out /\
    base_hours out !! 0%nat = Some NaN /\
    row_results out 0 nan nan nan nan nan nan.
Proof.
  match goal with |- exists out, ?r = _ /\ _ => destruct r as [out|] eqn:Hrun end;
    [|by vm_compute in Hrun].
  exists out. split; [done|].
  destruct (unknown_level_is_nan _ _ _ _ out [Str "low"; Str "medium"; Str "high"] 0
              (Str "extreme") (or_introl Hrun)) as (H1 & _ & _ & H2).
  - reflexivity.
  - vm_compute in Hrun. by injection Hrun as <-.
  - reflexivity.
  - by split.
Defined.

Lemma column_lookup_is_Some (c : string) (df : DataFrame) (s s' : list cell) (c' : string)
    (t : nat) (x : cell) :
  column c df = Some s -> column c' df = Some s' -> s !! t = Some x -> is_Some (s' !! t).
Proof.
  intros H H' Hx. apply column_length in H, H'. apply lookup_lt_Some in Hx.
  apply lookup_lt_is_Some. lia.
Qed.

(** X6.  A dashboard whose conversion level, stripped and lower-cased, is
    the normalized name of a tier gets the figures of that very tier:
    base_hours, junior_pct and manager_pct are the cells of the tier's
    row. *)
Theorem level_finds_its_tier (cv : Conversions) (cat eff rates : DataFrame) (out : Output)
    (tiers hrs jrs mgrs : list cell) (i t : nat) (l : cell) :
  either_run cv cat eff rates out ->
  column "conversion level" (normalize_columns eff) = Some tiers ->
  column "conversion rate hrs" (normalize_columns eff) = Some hrs ->
  column "junior analyst efforts" (normalize_columns eff) = Some jrs ->
  column "manager efforts" (normalize_columns eff) = Some mgrs ->
  tiers !! t = Some l ->
  conversion_level out !! i = Some (strip_lower l) ->
  base_hours out !! i = hrs !! t /\
  junior_pct out !! i = jrs !! t /\
  manager_pct out !! i = mgrs !! t.
Proof.
  intros Hrun Htiers Hhrs Hjrs Hmgrs Hl Hk. apply either_run_steps in Hrun as steps.
  destruct (steps_effort steps)
    as (tiers' & hrs' & jrs' & mgrs' & Ht & Hh & Hj & Hm & Hu & Eb & Ej & Em).
  rewrite Htiers in Ht. injection Ht as <-.
  rewrite Hhrs in Hh. injection Hh as <-.
  rewrite Hjrs in Hj. injection Hj as <-.
  rewrite Hmgrs in Hm. injection Hm as <-.
  destruct (column_lookup_is_Some _ _ _ _ _ _ _ Htiers Hhrs Hl) as [h Hh].
  destruct (column_lookup_is_Some _ _ _ _ _ _ _ Htiers Hjrs Hl) as [j Hj].
  destruct (column_lookup_is_Some _ _ _ _ _ _ _ Htiers Hmgrs Hl) as [m Hm].
  rewrite Eb, Ej, Em, !lookup_map, Hk, Hh, Hj, Hm. cbn.
  by rewrite (find_label_at tiers hrs t l h Hu Hl Hh), (find_label_at tiers jrs t l j Hu Hl Hj),
    (find_label_at tiers mgrs t l m Hu Hl Hm).
Qed.

(** A dashboard of level " HIGH" gets the figures of the tier "high". *)
Lemma level_finds_its_tier_witness :
  exists out,
    dash_analysis.run Example.cv
      {| columns := Example.catalog_columns;
         rows := [ [Str "Sales"; Str "Tableau"; Str " HIGH"; Num 3; Str "active"] ] |}
      Example.effort_tenths Example.rates = Some out /\
    base_hours out !! 0%nat = Some (Num 0.3) /\
    junior_pct out !! 0%nat = Some (Num 70) /\
    manager_pct out !! 0%nat = Some (Num 30).
Proof.
  match goal with |- exists out, ?r = _ /\ _ => destruct r as [out|] eqn:Hrun end;
    [|by vm_compute in Hrun].
  exists out. split; [done|].
  apply (level_finds_its_tier _ _ _ _ out
           [Str "low"; Str "medium"; Str "high"]
           [Num 0.1; Num 0.2; Num 0.3] [Num 70; Num 70; Num 70] [Num 30; Num 30; Num 30]
           0 2 (Str "high") (or_introl Hrun)); try reflexivity.
  vm_compute in Hrun. by injection Hrun as <-.
Defined.

(** The catalog a run works on is the row filter's. *)
Lemma steps_row_filter {pm sm cv cat eff rates out} :
  Steps pm sm cv cat eff rates out -> row_filter cat = Some (dashboard_df out).
Proof.
  intros steps. destruct (step_filter _ _ _ _ _ _ _ steps) as (df & Hdrop & ->).
  unfold row_filter. by rewrite Hdrop.
Qed.



(** ** The page factor, again *)

Lemma scale_value (k : Z) :
  In (default 1.0%float (scale_get k dash_analysis.scale)) (map snd dash_analysis.scale).
Proof.
  unfold dash_analysis.scale. cbn [scale_get map snd].
  repeat match goal with
         | |- context [(k =? ?c)%Z] => destruct (k =? c)%Z
         end; cbn [default In]; tauto.
Qed.

(** X8.  Whatever the page count, a page factor is one of the ten values of
    the table, so never below 1.0 and never above 1.45; this holds for the
    function of either file and for every entry of the page_factor column
    of a run. *)
Theorem page_factor_bounds :
  (forall p x : float,
     dash_analysis.page_multiplier p = Some x \/ dash_cat_analysis.page_multiplier p = Some x ->
     In x [1.00; 1.05; 1.10; 1.15; 1.20; 1.25; 1.30; 1.35; 1.40; 1.45]%float /\
     (1.0 <=? x)%float = true /\ (x <=? 1.45)%float = true) /\
  (forall cv cat eff rates out (i : nat) (x : float),
     either_run cv cat eff rates out ->
     page_factor out !! i = Some x ->
     (1.0 <=? x)%float = true /\ (x <=? 1.45)%float = true).
Proof.
  assert (forall p x : float,
            dash_analysis.page_multiplier p = Some x ->
            In x [1.00; 1.05; 1.10; 1.15; 1.20; 1.25; 1.30; 1.35; 1.40; 1.45]%float /\
            (1.0 <=? x)%float = true /\ (x <=? 1.45)%float = true) as Hpm.
  { intros p x H.
    assert (In x (map snd dash_analysis.scale)) as Hin.
    { unfold dash_analysis.page_multiplier in H. destruct (is_nan p).
      - injection H as <-. by left.
      - destruct (Py.int p) as [n|]; [|done]. cbn in H. injection H as <-. apply scale_value. }
    split; [exact Hin|].
    cbn in Hin. repeat (destruct Hin as [<-|Hin]; [by vm_compute|]). done. }
  split.
  - intros p x [H|H]; by apply (Hpm p).
  - intros cv cat eff rates out i x Hrun Hx. apply either_run_steps in Hrun as steps.
    pose proof (step_page_factor _ _ _ _ _ _ _ steps) as Hmap. apply mapM_Some in Hmap.
    destruct (Forall2_lookup_r _ _ _ _ _ Hmap Hx) as (p & _ & Hp).
    by apply (Hpm p).
Qed.

Lemma page_factor_bounds_witness :
  (1.0 <=? 1.25)%float = true /\ (1.25 <=? 1.45)%float = true.
Proof.
  apply (proj1 page_factor_bounds 6.9%float 1.25%float). left. by vm_compute.
Defined.



(** ** The rate table, again *)

Section rate_rows.

Lemma get_no_match key dflt (d : list (cell * cell)) :
  (forall (b : nat) p, d !! b = Some p -> label_eqb (Str key) (fst p) = false) ->
  get key dflt d = dflt.
Proof.
  unfold get. revert dflt. induction d as [|p d IH]; intros dflt H; cbn [fold_left]; [done|].
  rewrite (H 0%nat p eq_refl). apply IH. intros b q Hq. by apply (H (S b)).
Qed.

Lemma get_at_last key dflt (d : list (cell * cell)) (a : nat) (v : cell) :
  d !! a = Some (Str key, v) ->
  (forall (b : nat) p, (a < b)%nat -> d !! b = Some p -> label_eqb (Str key) (fst p) = false) ->
  get key dflt d = v.
Proof.
  revert dflt a. induction d as [|p d IH]; intros dflt [|a] Ha Hlast; try done.
  - cbn in Ha. injection Ha as ->. unfold get. cbn [fold_left fst snd label_eqb].
    rewrite String.eqb_refl. apply get_no_match.
    intros b q Hq. apply (Hlast (S b)); [lia|done].
  - unfold get. cbn [fold_left]. apply (IH _ a); [done|].
    intros b q Hb Hq. apply (Hlast (S b)); [lia|done].
Qed.

Lemma rate_row_get key rates a v position rate :
  rate_row key rates a v ->
  column "position" (normalize_columns rates) = Some position ->
  column "hourly rates" (normalize_columns rates) = Some rate ->
  get key (Num 0) (to_dict position rate) = v.
Proof.
  intros (position' & rate' & Hp & Hr & Ha & Hv & Hlast) Hp' Hr'.
  rewrite Hp in Hp'. rewrite Hr in Hr'. injection Hp' as ->. injection Hr' as ->.
  apply (get_at_last _ _ _ a).
  - unfold to_dict. apply lookup_zip_with_Some. by exists (Str key), v.
  - intros b [k w] Hb Hq. unfold to_dict in Hq.
    apply lookup_zip_with_Some in Hq as (k' & w' & E & Hk & _). injection E as -> ->.
    by apply (Hlast b).
Qed.

Lemma steps_rate_row {pm sm cv cat eff rates out} :
  Steps pm sm cv cat eff rates out ->
  (forall a v, rate_row "Junior Analyst" rates a v -> jr_rate out = v) /\
  (forall a v, rate_row "Manager" rates a v -> mgr_rate out = v).
Proof.
  intros steps. destruct (step_rates _ _ _ _ _ _ _ steps) as (d & Hd & Hj & Hm).
  apply indexed_to_dict_Some in Hd as (position & Hp & [(rate & Hr & ->) | [Hr ->]]).
  - rewrite Hj, Hm. split; intros a v H; by apply (rate_row_get _ rates a).
  - split; intros a v (position' & rate' & _ & Hr' & _);
      apply column_Some in Hr' as (i & _ & Hr' & _); congruence.
Qed.

End rate_rows.

(** X10.  When the rate table lists a position more than once, the scripts
    take the rate of its last row: the dictionary of lines 67-69 keeps the
    last value of a repeated key. *)
Theorem last_rate_row_wins cv cat eff rates out :
  either_run cv cat eff rates out ->
  (forall a v, rate_row "Junior Analyst" rates a v -> jr_rate out = v) /\
  (forall a v, rate_row "Manager" rates a v -> mgr_rate out = v).
Proof. intros Hrun. apply either_run_steps in Hrun. by apply (steps_rate_row Hrun). Qed.

(** Two rows for the junior analyst, 35 and then 40: the run takes 40. *)
Lemma last_rate_row_wins_witness :
  exists out,
    dash_analysis.run Example.cv Example.sales Example.effort Example.rates_repeated = Some out /\
    jr_rate out = Num 40.
Proof.
  eexists. split; [by vm_compute|].
  refine (proj1 (last_rate_row_wins Example.cv Example.sales Example.effort
                   Example.rates_repeated _ _) 2%nat (Num 40) _).
  - left. by vm_compute.
  - eexists _, _. split; [by vm_compute|]. split; [by vm_compute|].
    split; [done|]. split; [done|].
    intros [|[|[|b]]] c Hb Hc; try lia. done.
Defined.

(** X11.  When a dashboard is kept, the effort figures are numbers and no
    header repeats, a rate given as text in the row the scripts read (the
    last one of the junior analyst, or of the manager) stops both scripts:
    hours that are floats cannot be multiplied by a string. *)
Theorem text_rate_raises cv cat eff rates (df : DataFrame) (key : string) (a : nat) (s : string) :
  distinct_headers cat eff rates = true ->
  numeric_effort eff = true ->
  row_filter cat = Some df ->
  rows df <> [] ->
  key = "Junior Analyst" \/ key = "Manager" ->
  rate_row key rates a (Str s) ->
  both_raise cv cat eff rates.
Proof.
  intros _ _ _ _ Hkey Hrow. apply no_steps_both_raise. intros out steps.
  destruct (steps_rate_row steps) as [Hj Hm].
  destruct Hkey as [-> | ->].
  - apply Hj in Hrow.
    destruct (scalar_op_number _ _ _ _ (step_jr_cost _ _ _ _ _ _ _ steps)) as [x Hx]. congruence.
  - apply Hm in Hrow.
    destruct (scalar_op_number _ _ _ _ (step_mgr_cost _ _ _ _ _ _ _ steps)) as [x Hx]. congruence.
Qed.

Lemma text_rate_raises_witness :
  both_raise Example.cv Example.sales Example.effort Example.rates_text.
Proof.
  apply (text_rate_raises _ Example.sales Example.effort Example.rates_text
           {| columns := ["dashboard"; "tool"; "conversion_level"; "pages"; "status"];
              rows := rows Example.sales |}
           "Manager" 1 "80 per hour");
    [reflexivity | reflexivity | reflexivity | done | by right |].
  eexists _, _. split; [by vm_compute|]. split; [by vm_compute|].
  split; [done|]. split; [done|].
  intros [|[|b]] c Hb Hc; try lia. done.
Defined.

(** X12.  A rate left empty in the rate table is NaN in the run: every
    cost of that role and every total_cost is then NaN, and the total of
    the role, in which NaN counts for nothing, is 0.0. *)
Theorem empty_rate_costs_nothing cv cat eff rates out :
  either_run cv cat eff rates out ->
  (jr_rate out = NaN ->
     total_jr_cost out = 0%float /\
     forall i : nat, (i < nrows out)%nat ->
       jr_cost out !! i = Some NaN /\ total_cost out !! i = Some NaN) /\
  (mgr_rate out = NaN ->
     total_mgr_cost out = 0%float /\
     forall i : nat, (i < nrows out)%nat ->
       mgr_cost out !! i = Some NaN /\ total_cost out !! i = Some NaN).
Proof.
  intros Hrun. apply either_run_steps in Hrun as steps.
  assert (forall s : list cell, (forall i c, s !! i = Some c -> c = NaN) -> sum s = Some 0%float)
    as Hsum.
  { intros s Hs. apply sum_zeros. apply Forall_lookup. intros i c Hc.
    exists nan. split; [by apply (Hs i)|done]. }
  destruct (steps_lengths steps) as (_ & _ & _ & _ & _ & _ & _ & _ & _ & _ & _ & Lj & Lm & _).
  split; intros Hrate.
  - assert (forall i : nat, (i < nrows out)%nat ->
              jr_cost out !! i = Some NaN /\ total_cost out !! i = Some NaN) as Hrows.
    { intros i Hi.
      destruct (steps_row steps i Hi)
        as (st & bh & jp & mp & pf & sf & jr & mr & _ & _ & Hjr & _ & _ & Hres).
      rewrite Hrate in Hjr. injection Hjr as <-.
      destruct Hres as (_ & _ & _ & Hjc & _ & Htc).
      rewrite mul_nan_r in Hjc. by rewrite mul_nan_r, add_nan_l in Htc. }
    split; [|exact Hrows].
    pose proof (step_total_jr_cost _ _ _ _ _ _ _ steps) as Htot.
    rewrite Hsum in Htot; [congruence|].
    intros i c Hc. apply lookup_lt_Some in Hc as Hi. rewrite Lj in Hi.
    destruct (Hrows i Hi) as [Hn _]. congruence.
  - assert (forall i : nat, (i < nrows out)%nat ->
              mgr_cost out !! i = Some NaN /\ total_cost out !! i = Some NaN) as Hrows.
    { intros i Hi.
      destruct (steps_row steps i Hi)
        as (st & bh & jp & mp & pf & sf & jr & mr & _ & _ & _ & Hmr & _ & Hres).
      rewrite Hrate in Hmr. injection Hmr as <-.
      destruct Hres as (_ & _ & _ & _ & Hmc & Htc).
      rewrite mul_nan_r in Hmc. by rewrite mul_nan_r, add_nan_r in Htc. }
    split; [|exact Hrows].
    pose proof (step_total_mgr_cost _ _ _ _ _ _ _ steps) as Htot.
    rewrite Hsum in Htot; [congruence|].
    intros i c Hc. apply lookup_lt_Some in Hc as Hi. rewrite Lm in Hi.
    destruct (Hrows i Hi) as [Hn _]. congruence.
Qed.

Lemma empty_rate_costs_nothing_witness :
  exists out,
    dash_analysis.run Example.cv Example.sales Example.effort Example.rates_blank = Some out /\
    total_jr_cost out = 0%float /\
    total_cost out !! 0%nat = Some NaN.
Proof.
  eexists. split; [by vm_compute|].
  destruct (proj1 (empty_rate_costs_nothing Example.cv Example.sales Example.effort
                     Example.rates_blank _ (or_introl eq_refl)) eq_refl) as [Htotal Hrows].
  split; [exact Htotal|].
  apply Hrows. vm_compute. lia.
Defined.

(** ** One dashboard at a time *)

Section rows.

Context {cv : Conversions} {cat eff rates : DataFrame} {out : Output}.
Hypothesis steps :
  Steps dash_analysis.page_multiplier dash_analysis.status_multiplier cv cat eff rates out.

(** What the run reads of row [i], as a function of the level, the status
    and the page count of that row alone. *)
Lemma steps_row_inputs (i : nat) (bh jp mp pf sf : float) :
  row_inputs out i bh jp mp pf sf ->
  exists tiers hrs jrs mgrs k st p,
    column "conversion level" (normalize_columns eff) = Some tiers /\
    column "conversion rate hrs" (normalize_columns eff) = Some hrs /\
    column "junior analyst efforts" (normalize_columns eff) = Some jrs /\
    column "manager efforts" (normalize_columns eff) = Some mgrs /\
    conversion_level out !! i = Some k /\
    status out !! i = Some st /\
    pages out !! i = Some p /\
    find_label k (map strip_lower tiers) hrs = Num bh /\
    find_label k (map strip_lower tiers) jrs = Num jp /\
    find_label k (map strip_lower tiers) mgrs = Num mp /\
    dash_analysis.page_multiplier p = Some pf /\
    sf = status_factor_of st.
Proof.
  intros (Hbh & Hjp & Hmp & Hpf & Hsf).
  destruct (steps_effort steps) as (tiers & hrs & jrs & mgrs & H1 & H2 & H3 & H4 & _ & Eb & Ej & Em).
  rewrite Eb, lookup_map in Hbh. rewrite Ej, lookup_map in Hjp. rewrite Em, lookup_map in Hmp.
  destruct (conversion_level out !! i) as [k|] eqn:Hk; [|done].
  cbn in Hbh, Hjp, Hmp. injection Hbh as Hbh. injection Hjp as Hjp. injection Hmp as Hmp.
  rewrite (step_status_factor _ _ _ _ _ _ _ steps), lookup_map in Hsf.
  destruct (status out !! i) as [st|] eqn:Hst; [|done]. cbn in Hsf. injection Hsf as Hsf.
  pose proof (step_page_factor _ _ _ _ _ _ _ steps) as Hmap. apply mapM_Some in Hmap.
  destruct (Forall2_lookup_r _ _ _ _ _ Hmap Hpf) as (p & Hp & Hpm).
  exists tiers, hrs, jrs, mgrs, k, st, p. by rewrite Hp.
Qed.

End rows.

(** Two runs on the same effort table, row [i] of one and row [j] of the
    other: the hours agree when level, status and page count do, and the
    costs too when the two runs read the same rates. *)
Lemma steps_rows_agree {cv cat1 cat2 eff rates1 rates2 out1 out2} (i j : nat) :
  Steps dash_analysis.page_multiplier dash_analysis.status_multiplier cv cat1 eff rates1 out1 ->
  Steps dash_analysis.page_multiplier dash_analysis.status_multiplier cv cat2 eff rates2 out2 ->
  (i < nrows out1)%nat ->
  conversion_level out1 !! i = conversion_level out2 !! j ->
  status out1 !! i = status out2 !! j ->
  pages out1 !! i = pages out2 !! j ->
  (base_hours out1 !! i, junior_pct out1 !! i, manager_pct out1 !! i)
  = (base_hours out2 !! j, junior_pct out2 !! j, manager_pct out2 !! j) /\
  (page_factor out1 !! i, status_factor out1 !! i)
  = (page_factor out2 !! j, status_factor out2 !! j) /\
  (adjusted_hours out1 !! i, jr_hours out1 !! i, mgr_hours out1 !! i)
  = (adjusted_hours out2 !! j, jr_hours out2 !! j, mgr_hours out2 !! j) /\
  (jr_rate out1 = jr_rate out2 -> mgr_rate out1 = mgr_rate out2 ->
   (jr_cost out1 !! i, mgr_cost out1 !! i, total_cost out1 !! i)
   = (jr_cost out2 !! j, mgr_cost out2 !! j, total_cost out2 !! j)).
Proof.
  intros steps1 steps2 Hi Hlevel Hstatus Hpages.
  assert (j < nrows out2)%nat as Hj.
  { destruct (steps_lengths steps1) as (L1 & _). destruct (steps_lengths steps2) as (L2 & _).
    rewrite <- L2. apply lookup_lt_is_Some. rewrite <- Hlevel. apply lookup_lt_is_Some. lia. }
  destruct (steps_row steps1 i Hi)
    as (st1 & bh1 & jp1 & mp1 & pf1 & sf1 & jr1 & mr1 & _ & _ & Hjr1 & Hmr1 & Hin1 & Hres1).
  destruct (steps_row steps2 j Hj)
    as (st2 & bh2 & jp2 & mp2 & pf2 & sf2 & jr2 & mr2 & _ & _ & Hjr2 & Hmr2 & Hin2 & Hres2).
  destruct (steps_row_inputs steps1 i _ _ _ _ _ Hin1)
    as (tiers & hrs & jrs & mgrs & k & st & p & T1 & T2 & T3 & T4 & Hk & Hst & Hp
        & Fb1 & Fj1 & Fm1 & Fp1 & Fs1).
  destruct (steps_row_inputs steps2 j _ _ _ _ _ Hin2)
    as (tiers' & hrs' & jrs' & mgrs' & k' & st' & p' & T1' & T2' & T3' & T4' & Hk' & Hst' & Hp'
        & Fb2 & Fj2 & Fm2 & Fp2 & Fs2).
  rewrite T1 in T1'. rewrite T2 in T2'. rewrite T3 in T3'. rewrite T4 in T4'.
  injection T1' as <-. injection T2' as <-. injection T3' as <-. injection T4' as <-.
  rewrite Hlevel, Hk' in Hk. rewrite Hstatus, Hst' in Hst. rewrite Hpages, Hp' in Hp.
  injection Hk as <-. injection Hst as <-. injection Hp as <-.
  assert (bh1 = bh2) as <- by congruence. assert (jp1 = jp2) as <- by congruence.
  assert (mp1 = mp2) as <- by congruence. assert (pf1 = pf2) as <- by congruence.
  assert (sf1 = sf2) as <- by congruence.
  destruct Hin1 as (A1 & A2 & A3 & A4 & A5). destruct Hin2 as (B1 & B2 & B3 & B4 & B5).
  destruct Hres1 as (C1 & C2 & C3 & C4 & C5 & C6). destruct Hres2 as (D1 & D2 & D3 & D4 & D5 & D6).
  split; [congruence|]. split; [congruence|]. split; [congruence|].
  intros Hjr Hmr.
  assert (jr1 = jr2) as <- by congruence. assert (mr1 = mr2) as <- by congruence.
  congruence.
Qed.

Lemma steps_same_rates {pm sm cv cat1 cat2 eff1 eff2 rates out1 out2} :
  Steps pm sm cv cat1 eff1 rates out1 ->
  Steps pm sm cv cat2 eff2 rates out2 ->
  jr_rate out1 = jr_rate out2 /\ mgr_rate out1 = mgr_rate out2.
Proof.
  intros steps1 steps2.
  destruct (step_rates _ _ _ _ _ _ _ steps1) as (d1 & Hd1 & Ej1 & Em1).
  destruct (step_rates _ _ _ _ _ _ _ steps2) as (d2 & Hd2 & Ej2 & Em2).
  rewrite Hd1 in Hd2. injection Hd2 as <-.
  split; congruence.
Qed.

(** X13.  What a run computes for a dashboard depends on that dashboard
    alone: two runs on the same effort and rate tables give a dashboard
    with the same normalized level, status and page count the same nine
    derived entries and the same three entries read from the effort
    table, whatever else the two catalogs hold and whichever of the two
    scripts is run. *)
Theorem rows_are_independent cv cat1 cat2 eff rates out1 out2 (i j : nat) :
  either_run cv cat1 eff rates out1 ->
  either_run cv cat2 eff rates out2 ->
  (i < nrows out1)%nat ->
  conversion_level out1 !! i = conversion_level out2 !! j ->
  status out1 !! i = status out2 !! j ->
  pages out1 !! i = pages out2 !! j ->
  derived_row out1 i = derived_row out2 j.
Proof.
  intros Hrun1 Hrun2 Hi Hlevel Hstatus Hpages.
  apply either_run_steps in Hrun1 as steps1. apply either_run_steps in Hrun2 as steps2.
  destruct (steps_rows_agree i j steps1 steps2 Hi Hlevel Hstatus Hpages) as (E1 & E2 & E3 & E4).
  destruct (steps_same_rates steps1 steps2) as [Hjr Hmr].
  unfold derived_row. by rewrite E1, E2, E3, (E4 Hjr Hmr).
Qed.

(** The dashboard "Sales" alone in one catalog and second of two in the
    other. *)
Lemma rows_are_independent_witness :
  exists out1 out2,
    dash_analysis.run Example.cv Example.two_dashboards Example.effort Example.rates = Some out1 /\
    dash_cat_analysis.run Example.cv Example.sales Example.effort Example.rates = Some out2 /\
    derived_row out1 1 = derived_row out2 0.
Proof.
  eexists _, _. split; [by vm_compute|]. split; [by vm_compute|].
  apply (rows_are_independent Example.cv Example.two_dashboards Example.sales
           Example.effort Example.rates).
  - left. by vm_compute.
  - right. by vm_compute.
  - vm_compute. lia.
  - by vm_compute.
  - by vm_compute.
  - by vm_compute.
Defined.

(** ** What the hours do not depend on *)

Lemma steps_same_catalog {pm sm cv cat eff1 eff2 rates1 rates2 out1 out2} :
  Steps pm sm cv cat eff1 rates1 out1 ->
  Steps pm sm cv cat eff2 rates2 out2 ->
  dashboard_df out1 = dashboard_df out2 /\
  conversion_level out1 = conversion_level out2 /\
  status out1 = status out2 /\
  pages out1 = pages out2.
Proof.
  intros steps1 steps2.
  pose proof (steps_row_filter steps1) as F1. pose proof (steps_row_filter steps2) as F2.
  assert (dashboard_df out1 = dashboard_df out2) as Hdf by congruence.
  split; [done|].
  destruct (step_conversion_level _ _ _ _ _ _ _ steps1) as (l1 & Hl1 & Hc1).
  destruct (step_conversion_level _ _ _ _ _ _ _ steps2) as (l2 & Hl2 & Hc2).
  pose proof (step_status _ _ _ _ _ _ _ steps1) as Hs1.
  pose proof (step_status _ _ _ _ _ _ _ steps2) as Hs2.
  pose proof (step_pages _ _ _ _ _ _ _ steps1) as Hp1.
  pose proof (step_pages _ _ _ _ _ _ _ steps2) as Hp2.
  rewrite Hdf in Hl1, Hs1, Hp1.
  repeat split; congruence.
Qed.

Lemma list_eq_by_rows {A} (n : nat) (l1 l2 : list A) :
  length l1 = n -> length l2 = n ->
  (forall i : nat, (i < n)%nat -> l1 !! i = l2 !! i) -> l1 = l2.
Proof.
  intros L1 L2 H. apply list_eq. intros i.
  destruct (Nat.lt_ge_cases i n) as [Hi|Hi]; [by apply H|].
  rewrite !lookup_ge_None_2; [done|lia|lia].
Qed.

(** X14.  The hours do not depend on the rate table: two runs on the same
    catalog and effort table with different rate tables have the same
    factors, the same adjusted_hours, jr_hours and mgr_hours in every row
    and the same total_hours; in dash_analysis.py the single-rate total
    is then the same too. *)
Theorem hours_ignore_rates cv cat eff rates1 rates2 out1 out2 :
  either_run cv cat eff rates1 out1 ->
  either_run cv cat eff rates2 out2 ->
  (page_factor out1 = page_factor out2 /\
   status_factor out1 = status_factor out2 /\
   adjusted_hours out1 = adjusted_hours out2 /\
   jr_hours out1 = jr_hours out2 /\
   mgr_hours out1 = mgr_hours out2 /\
   total_hours out1 = total_hours out2) /\
  (dash_analysis.run cv cat eff rates1 = Some out1 ->
   dash_analysis.run cv cat eff rates2 = Some out2 ->
   contractor_total_cost out1 = contractor_total_cost out2).
Proof.
  intros Hrun1 Hrun2.
  apply either_run_steps in Hrun1 as steps1. apply either_run_steps in Hrun2 as steps2.
  destruct (steps_same_catalog steps1 steps2) as (Hdf & Hlevel & Hstatus & Hpages).
  assert (nrows out2 = nrows out1) as Hn by (unfold nrows; by rewrite Hdf).
  destruct (steps_lengths steps1)
    as (_ & _ & _ & _ & _ & _ & P1 & S1 & A1 & J1 & M1 & _).
  destruct (steps_lengths steps2)
    as (_ & _ & _ & _ & _ & _ & P2 & S2 & A2 & J2 & M2 & _).
  rewrite Hn in P2, S2, A2, J2, M2.
  assert (forall i : nat, (i < nrows out1)%nat ->
            (page_factor out1 !! i, status_factor out1 !! i)
            = (page_factor out2 !! i, status_factor out2 !! i) /\
            (adjusted_hours out1 !! i, jr_hours out1 !! i, mgr_hours out1 !! i)
            = (adjusted_hours out2 !! i, jr_hours out2 !! i, mgr_hours out2 !! i)) as Hrows.
  { intros i Hi.
    destruct (steps_rows_agree i i steps1 steps2 Hi) as (_ & E2 & E3 & _); [congruence..|done]. }
  assert (adjusted_hours out1 = adjusted_hours out2) as Hah.
  { apply (list_eq_by_rows (nrows out1)); [done..|].
    intros i Hi. destruct (Hrows i Hi) as [_ E]. congruence. }
  assert (total_hours out1 = total_hours out2) as Hth.
  { pose proof (step_total_hours _ _ _ _ _ _ _ steps1) as T1.
    pose proof (step_total_hours _ _ _ _ _ _ _ steps2) as T2. congruence. }
  split.
  - split; [|split; [|split; [done|split; [|split; [|done]]]]];
      (apply (list_eq_by_rows (nrows out1)); [done..|]);
      intros i Hi; destruct (Hrows i Hi) as [E1 E2]; congruence.
  - intros R1 R2.
    apply dash_analysis_steps in R1 as [_ ->]. apply dash_analysis_steps in R2 as [_ ->].
    by rewrite Hth.
Qed.

Lemma hours_ignore_rates_witness :
  exists out1 out2,
    dash_analysis.run Example.cv Example.sales Example.effort Example.rates = Some out1 /\
    dash_analysis.run Example.cv Example.sales Example.effort Example.rates_repeated = Some out2 /\
    total_hours out1 = total_hours out2 /\
    contractor_total_cost out1 = contractor_total_cost out2.
Proof.
  eexists _, _. split; [by vm_compute|]. split; [by vm_compute|].
  destruct (hours_ignore_rates Example.cv Example.sales Example.effort
              Example.rates Example.rates_repeated _ _
              (or_introl eq_refl) (or_introl eq_refl)) as [(_ & _ & _ & _ & _ & Hth) Hc].
  split; [exact Hth|]. by apply Hc.
Defined.

(** ** The shape of a run *)

Lemma filter_length_le_rows {A} (p : A -> bool) (l : list A) :
  (length (List.filter p l) <= length l)%nat.
Proof. induction l as [|a l IH]; simpl; [lia|]. destruct (p a); simpl; lia. Qed.

Lemma numbers_by_rows (n : nat) (s : list cell) :
  length s = n ->
  (forall i : nat, (i < n)%nat -> exists x, s !! i = Some (Num x)) ->
  forallb is_number s = true.
Proof.
  intros L H. apply forallb_forall. intros c Hc.
  apply list_elem_of_In, list_elem_of_lookup in Hc as [i Hi].
  apply lookup_lt_Some in Hi as Hlt. rewrite L in Hlt.
  destruct (H i Hlt) as [x Hx]. rewrite Hx in Hi. by injection Hi as <-.
Qed.

(** X15.  A run keeps at most the rows of the catalog, and every column
    it adds has one entry for each row it keeps; the twelve columns of
    figures hold numbers only (NaN among them), never text. *)
Theorem columns_are_aligned cv cat eff rates out :
  either_run cv cat eff rates out ->
  (nrows out <= length (rows cat))%nat /\
  Forall (fun s : list cell => length s = nrows out /\ forallb is_number s = true)
    [ base_hours out; junior_pct out; manager_pct out;
      map Num (page_factor out); map Num (status_factor out); map Num (pages out);
      adjusted_hours out; jr_hours out; mgr_hours out;
      jr_cost out; mgr_cost out; total_cost out ] /\
  length (conversion_level out) = nrows out /\
  length (status out) = nrows out.
Proof.
  intros Hrun. apply either_run_steps in Hrun as steps.
  destruct (steps_lengths steps)
    as (L1 & L2 & L3 & L4 & L5 & L6 & L7 & L8 & L9 & L10 & L11 & L12 & L13 & L14).
  split.
  { pose proof (steps_row_filter steps) as Hdf. unfold row_filter, dropna in Hdf.
    destruct (mapM _ _) as [idx|]; [|done]. cbn in Hdf. injection Hdf as Hdf.
    unfold nrows. rewrite <- Hdf. cbn [rename rows normalize_columns].
    apply filter_length_le_rows. }
  split; [|done].
  assert (forall i : nat, (i < nrows out)%nat ->
            exists bh jp mp pf sf ah jh mh jc mc tc,
              row_inputs out i bh jp mp pf sf /\ row_results out i ah jh mh jc mc tc) as Hrows.
  { intros i Hi.
    destruct (steps_row steps i Hi)
      as (st & bh & jp & mp & pf & sf & jr & mr & _ & _ & _ & _ & Hin & Hres).
    by eexists bh, jp, mp, pf, sf, _, _, _, _, _, _. }
  repeat match goal with
         | |- Forall _ (_ :: _) => apply Forall_cons_2
         | |- Forall _ [] => apply Forall_nil_2
         end;
    (split; [by rewrite ?length_map|]);
    first [ apply forallb_map_Num
          | apply (numbers_by_rows (nrows out)); [done|];
            intros i Hi;
            destruct (Hrows i Hi)
              as (bh & jp & mp & pf & sf & ah & jh & mh & jc & mc & tc
                  & (I1 & I2 & I3 & I4 & I5) & (R1 & R2 & R3 & R4 & R5 & R6));
            by eexists ].
Qed.

Lemma columns_are_aligned_witness :
  exists out,
    dash_cat_analysis.run Example.cv Example.two_dashboards Example.effort Example.rates
    = Some out /\
    (nrows out <= 2)%nat /\ length (total_cost out) = nrows out.
Proof.
  eexists. split; [by vm_compute|].
  destruct (columns_are_aligned Example.cv Example.two_dashboards Example.effort Example.rates
              _ (or_intror eq_refl)) as (Hn & Hcols & _).
  split; [exact Hn|].
  do 11 apply Forall_cons_1 in Hcols as [_ Hcols].
  apply Forall_cons_1 in Hcols as [[Hlen _] _]. exact Hlen.
Defined.

(** X16.  When the filter keeps no dashboard (an empty sheet, or no row
    with both a name and a level), the three totals of a run that gets
    through its cost computation are 0.0, and so is the single-rate total
    of dash_analysis.py. *)
Theorem no_dashboard_no_cost cv cat eff rates out :
  either_run cv cat eff rates out ->
  nrows out = 0%nat ->
  total_hours out = 0%float /\
  total_jr_cost out = 0%float /\
  total_mgr_cost out = 0%float /\
  (dash_analysis.run cv cat eff rates = Some out -> contractor_total_cost out = 0%float).
Proof.
  intros Hrun Hn. apply either_run_steps in Hrun as steps.
  destruct (steps_lengths steps)
    as (_ & _ & _ & _ & _ & _ & _ & _ & A & _ & _ & J & M & _).
  rewrite Hn in A, J, M.
  apply nil_length_inv in A, J, M.
  pose proof (step_total_hours _ _ _ _ _ _ _ steps) as T1.
  pose proof (step_total_jr_cost _ _ _ _ _ _ _ steps) as T2.
  pose proof (step_total_mgr_cost _ _ _ _ _ _ _ steps) as T3.
  rewrite A in T1. rewrite J in T2. rewrite M in T3.
  cbn in T1, T2, T3. injection T1 as T1. injection T2 as T2. injection T3 as T3.
  repeat split; try done.
  intros R. apply dash_analysis_steps in R as [_ ->]. by rewrite <- T1.
Qed.

(** A sheet with headers and no rows. *)
Lemma no_dashboard_no_cost_witness :
  exists out,
    dash_analysis.run Example.cv Example.no_dashboards Example.effort Example.rates = Some out /\
    total_hours out = 0%float /\ contractor_total_cost out = 0%float.
Proof.
  eexists. split; [by vm_compute|].
  destruct (no_dashboard_no_cost Example.cv Example.no_dashboards Example.effort Example.rates
              _ (or_introl eq_refl) eq_refl) as (H1 & _ & _ & H4).
  split; [exact H1|]. by apply H4.
Defined.

(** X17.  In dash_cat_analysis.py the single-rate total is priced at the
    junior rate read from the table: without a "Junior Analyst" row it is
    [total_hours * 0], a zero or NaN, whereas dash_analysis.py prices the
    same hours at 43 whatever the table holds. *)
Theorem contractor_cost_follows_junior_rate cv cat eff rates out :
  dash_cat_analysis.run cv cat eff rates = Some out ->
  has_position "Junior Analyst" rates = false ->
  contractor_total_cost out = (total_hours out * 0)%float /\
  zero_or_nan (contractor_total_cost out) = true /\
  exists out', dash_analysis.run cv cat eff rates = Some out' /\
               total_hours out' = total_hours out /\
               contractor_total_cost out' = (total_hours out * 43)%float.
Proof.
  intros Hrun Hno.
  apply dash_cat_analysis_steps in Hrun as [steps (jr & Hjr & Hc)].
  destruct (steps_rate_missing steps) as [Hzero _].
  rewrite (Hzero Hno) in Hjr. injection Hjr as <-.
  split; [done|]. split; [rewrite Hc; apply mul_zero_r_zero_or_nan|].
  exists (with_contractor_total_cost (total_hours out * 43) out).
  split; [|done].
  apply dash_analysis_run_of_steps; [|done].
  by apply steps_with_contractor_total_cost.
Qed.

Lemma contractor_cost_follows_junior_rate_witness :
  exists out,
    dash_cat_analysis.run Example.cv Example.sales Example.effort Example.rates_manager_only
    = Some out /\
    zero_or_nan (contractor_total_cost out) = true.
Proof.
  eexists. split; [by vm_compute|].
  by destruct (contractor_cost_follows_junior_rate Example.cv Example.sales Example.effort
                 Example.rates_manager_only _ eq_refl eq_refl) as (_ & H & _).
Defined.

(** X18.  A page count that pd.to_numeric cannot read, or that is missing,
    does not stop the run: it is coerced to NaN (line 26) and the dashboard
    gets the page factor 1.0. *)
Theorem unreadable_pages_count_as_one cv cat eff rates out (pg : list cell) (i : nat) (c : cell) :
  either_run cv cat eff rates out ->
  column "pages" (dashboard_df out) = Some pg ->
  pg !! i = Some c ->
  is_nan (to_numeric cv c) = true ->
  pages out !! i = Some nan /\ page_factor out !! i = Some 1.0%float.
Proof.
  intros Hrun Hpg Hc Hnan. apply either_run_steps in Hrun as steps.
  pose proof (step_pages _ _ _ _ _ _ _ steps) as Hpages. rewrite Hpg in Hpages.
  cbn in Hpages. injection Hpages as Hpages.
  assert (pages out !! i = Some (to_numeric cv c)) as Hp
    by (rewrite <- Hpages, lookup_map, Hc; done).
  pose proof (step_page_factor _ _ _ _ _ _ _ steps) as Hmap. apply mapM_Some in Hmap.
  destruct (Forall2_lookup_l _ _ _ _ _ Hmap Hp) as (x & Hx & Hpm).
  unfold dash_analysis.page_multiplier in Hpm. rewrite Hnan in Hpm. injection Hpm as <-.
  apply is_nan_spec in Hnan. by rewrite <- Hnan.
Qed.

Lemma unreadable_pages_count_as_one_witness :
  exists out,
    dash_cat_analysis.run Example.cv Example.sales_pages_text Example.effort Example.rates
    = Some out /\
    page_factor out !! 0%nat = Some 1.0%float.
Proof.
  eexists. split; [by vm_compute|].
  by destruct (unreadable_pages_count_as_one Example.cv Example.sales_pages_text Example.effort
                 Example.rates _ [Str "n/a"] 0 (Str "n/a")
                 (or_intror eq_refl) eq_refl eq_refl eq_refl) as [_ H].
Defined.
